(** * SakuraCloud DNS provider (providers/dns/sakuracloud/sakuracloud.go)

    A shallow embedding of the provider: its configuration, its two
    constructors, the [Present], [CleanUp] and [Timeout] methods and the
    [newCaller] helper, followed by the properties stated about them.

    Conventions.
    - A Go [string] is a Rocq [string] (a sequence of bytes).
    - [int] and [time.Duration] (nanoseconds) are [Z]; the only arithmetic
      the file performs is on compile-time constants.
    - A pointer to a [Config] is an [option loc] into the store of [Config]
      objects held by the [World]; [None] is [nil].  The file does not write
      through a [*DNSProvider] or a [*http.Client]: they are an [option] of
      the value, [None] being [nil].
    - Package-level variables of the imported packages that the file assigns
      are fields of the [World].
    - Dereferencing [nil] panics; a panic keeps the world as it was when it
      happened.
    - Everything imported from outside the file is a member of the class
      [Externals]. *)

From Stdlib Require Import ZArith String Ascii List Lia.
From stdpp Require Import base option gmap strings list fin_maps.

Open Scope Z_scope.
Open Scope string_scope.
Open Scope list_scope.

(** ** Go library values *)

(** [error]: a value built by [errors.New], or by [fmt.Errorf] with a format
    that is a literal prefix followed by the verb [%w]. *)
Inductive error : Type :=
| errors_New (text : string)
| fmt_Errorf_w (prefix : string) (err : error).

(** [err.Error()] *)
Fixpoint Error (e : error) : string :=
  match e with
  | errors_New text => text
  | fmt_Errorf_w prefix err => prefix +:+ Error err
  end.

(** [errors.Unwrap(err)] *)
Definition Unwrap (e : error) : option error :=
  match e with
  | errors_New _ => None
  | fmt_Errorf_w _ err => Some err
  end.

(** [time.Second] and [time.Hour], in nanoseconds. *)
Definition time_Second : Z := 1000000000.
Definition time_Minute : Z := 60 * time_Second.
Definition time_Hour : Z := 60 * time_Minute.

(** [strings.HasSuffix]:
    [len(s) >= len(suffix) && s[len(s)-len(suffix):] == suffix]. *)
Definition strings_HasSuffix (s suffix : string) : bool :=
  (String.length suffix <=? String.length s)%nat &&
  String.eqb
    (substring (String.length s - String.length suffix)
               (String.length suffix) s)
    suffix.

(** Membership of a byte in a cutset. *)
Definition in_cutset (c : ascii) (cutset : string) : bool :=
  existsb (Ascii.eqb c) (list_ascii_of_string cutset).

(** The loop of [strings.TrimRight] for an ASCII cutset:
    [for len(s) > 0 && contains(cutset, s[len(s)-1]) { s = s[:len(s)-1] }].
    Each turn shortens [s], so [len(s)] turns are enough. *)
Fixpoint trimRight_loop (fuel : nat) (s cutset : string) : string :=
  match fuel with
  | O => s
  | S fuel' =>
      match String.get (String.length s - 1) s with
      | Some c =>
          if (0 <? String.length s)%nat && in_cutset c cutset
          then trimRight_loop fuel' (substring 0 (String.length s - 1) s) cutset
          else s
      | None => s
      end
  end.

(** [strings.TrimRight(s, cutset)], for a cutset of ASCII bytes (a cutset
    with a multi-byte rune is trimmed rune by rune in Go and is not used
    here). *)
Definition strings_TrimRight (s cutset : string) : string :=
  trimRight_loop (String.length s) s cutset.

(** ** Data of the package and of its imports *)

(** The one field of [http.Client] the file sets. *)
Record http_Client : Type := { Client_Timeout : Z }.

(** [type Config struct] *)
Record Config : Type := {
  Token : string;
  Secret : string;
  PropagationTimeout : Z;
  PollingInterval : Z;
  TTL : Z;
  HTTPClient : option http_Client
}.

(** Addresses of [Config] objects. *)
Definition loc : Type := nat.

(** The fields of [dns01.ChallengeInfo] the file reads. *)
Record ChallengeInfo : Type := {
  EffectiveFQDN : string;
  Value : string
}.

(** The fields of [client.Options] the file sets or reads. *)
Record client_Options : Type := {
  AccessToken : string;
  AccessTokenSecret : string;
  HttpClient : option http_Client;
  UserAgent : string
}.

(** The fields of [api.CallerOptions] the file sets or reads.  [Options] is
    the embedded [*client.Options]; the file reads through it without a nil
    test, and it is kept by value. *)
Record api_CallerOptions : Type := {
  Options : client_Options;
  APIRootURL : string;
  DefaultZone : string;
  Zones : list string
}.

(** [iaas.APICaller] and [iaas.DNSAPI] are opaque to the file: a handle is
    identified by the constructor call that made it. *)
Inductive iaas_APICaller : Type :=
| iaas_NewClientWithOptions (opts : client_Options).

Inductive iaas_DNSAPI : Type :=
| iaas_NewDNSOp (caller : iaas_APICaller).

(** [type DNSProvider struct] *)
Record DNSProvider : Type := {
  config : option loc;
  client : iaas_DNSAPI
}.

(** Calls of the two helpers of the package that talk to the DNS API. *)
Inductive APICall : Type :=
| CallAddTXTRecord (fqdn value : string) (ttl : Z)
| CallCleanupTXTRecord (fqdn value : string).

(** Environment variables names. *)
Definition envNamespace : string := "SAKURACLOUD_".

Definition EnvAccessToken : string := envNamespace +:+ "ACCESS_TOKEN".
Definition EnvAccessTokenSecret : string := envNamespace +:+ "ACCESS_TOKEN_SECRET".

Definition EnvTTL : string := envNamespace +:+ "TTL".
Definition EnvPropagationTimeout : string := envNamespace +:+ "PROPAGATION_TIMEOUT".
Definition EnvPollingInterval : string := envNamespace +:+ "POLLING_INTERVAL".
Definition EnvHTTPTimeout : string := envNamespace +:+ "HTTP_TIMEOUT".

(** ** What the file imports *)

Class Externals : Type := {
  (** Everything outside the process: files, the network, the DNS service. *)
  Ext : Type;

  (** [dns01.GetChallengeInfo(domain, keyAuth)].  The name it returns is
      resolved when it is called: it reads the environment and the outside
      world (the DNS) as they are at that time. *)
  dns01_GetChallengeInfo :
    string -> string -> gmap string string -> Ext -> ChallengeInfo;
  dns01_DefaultTTL : Z;
  dns01_DefaultPropagationTimeout : Z;
  dns01_DefaultPollingInterval : Z;

  (** [env.GetOrDefaultInt(envVar, defaultValue)] and
      [env.GetOrDefaultSecond(envVar, defaultValue)], reading the
      environment. *)
  env_GetOrDefaultInt : string -> Z -> gmap string string -> Z;
  env_GetOrDefaultSecond : string -> Z -> gmap string string -> Z;
  (** The error [env.Get] builds for the names it misses. *)
  env_Get_error : list string -> error;

  (** [useragent.Get()] and [iaas.DefaultUserAgent] *)
  useragent_Get : string;
  iaas_DefaultUserAgent : string;

  (** [api.DefaultOption()]: the options, or the error. *)
  api_DefaultOption : gmap string string -> Ext -> api_CallerOptions + error;
  (** [api.MergeOptions(opts...)], for the two options it is given here. *)
  api_MergeOptions : api_CallerOptions -> api_CallerOptions -> api_CallerOptions;

  (** [(d *DNSProvider).addTXTRecord(fqdn, value, ttl)] and
      [(d *DNSProvider).cleanupTXTRecord(fqdn, value)], the two helpers of the
      package that talk to the DNS service. *)
  addTXTRecord :
    option DNSProvider -> string -> string -> Z -> Ext -> option error * Ext;
  cleanupTXTRecord :
    option DNSProvider -> string -> string -> Ext -> option error * Ext
}.

Section Provider.
Context {E : Externals}.

(** ** The state the file reads and writes *)

Record World : Type := {
  (** the environment variables of the process *)
  environ : gmap string string;
  (** the [Config] objects *)
  heap : gmap loc Config;
  (** [defaults.DefaultStatePollingTimeout] *)
  defaults_DefaultStatePollingTimeout : Z;
  (** [iaas.APIDefaultZone], [iaas.SakuraCloudZones], [iaas.SakuraCloudAPIRoot] *)
  iaas_APIDefaultZone : string;
  iaas_SakuraCloudZones : list string;
  iaas_SakuraCloudAPIRoot : string;
  (** the outside world *)
  ext : Ext;
  (** the calls of the two helpers so far, oldest first *)
  calls : list APICall
}.

Definition with_heap (h : gmap loc Config) (w : World) : World :=
  {| environ := environ w; heap := h;
     defaults_DefaultStatePollingTimeout := defaults_DefaultStatePollingTimeout w;
     iaas_APIDefaultZone := iaas_APIDefaultZone w;
     iaas_SakuraCloudZones := iaas_SakuraCloudZones w;
     iaas_SakuraCloudAPIRoot := iaas_SakuraCloudAPIRoot w;
     ext := ext w; calls := calls w |}.

Definition with_DefaultStatePollingTimeout (t : Z) (w : World) : World :=
  {| environ := environ w; heap := heap w;
     defaults_DefaultStatePollingTimeout := t;
     iaas_APIDefaultZone := iaas_APIDefaultZone w;
     iaas_SakuraCloudZones := iaas_SakuraCloudZones w;
     iaas_SakuraCloudAPIRoot := iaas_SakuraCloudAPIRoot w;
     ext := ext w; calls := calls w |}.

Definition with_APIDefaultZone (z : string) (w : World) : World :=
  {| environ := environ w; heap := heap w;
     defaults_DefaultStatePollingTimeout := defaults_DefaultStatePollingTimeout w;
     iaas_APIDefaultZone := z;
     iaas_SakuraCloudZones := iaas_SakuraCloudZones w;
     iaas_SakuraCloudAPIRoot := iaas_SakuraCloudAPIRoot w;
     ext := ext w; calls := calls w |}.

Definition with_SakuraCloudZones (zs : list string) (w : World) : World :=
  {| environ := environ w; heap := heap w;
     defaults_DefaultStatePollingTimeout := defaults_DefaultStatePollingTimeout w;
     iaas_APIDefaultZone := iaas_APIDefaultZone w;
     iaas_SakuraCloudZones := zs;
     iaas_SakuraCloudAPIRoot := iaas_SakuraCloudAPIRoot w;
     ext := ext w; calls := calls w |}.

Definition with_SakuraCloudAPIRoot (r : string) (w : World) : World :=
  {| environ := environ w; heap := heap w;
     defaults_DefaultStatePollingTimeout := defaults_DefaultStatePollingTimeout w;
     iaas_APIDefaultZone := iaas_APIDefaultZone w;
     iaas_SakuraCloudZones := iaas_SakuraCloudZones w;
     iaas_SakuraCloudAPIRoot := r;
     ext := ext w; calls := calls w |}.

(** The outside world after a call of a helper, and the call recorded. *)
Definition with_call (c : APICall) (x : Ext) (w : World) : World :=
  {| environ := environ w; heap := heap w;
     defaults_DefaultStatePollingTimeout := defaults_DefaultStatePollingTimeout w;
     iaas_APIDefaultZone := iaas_APIDefaultZone w;
     iaas_SakuraCloudZones := iaas_SakuraCloudZones w;
     iaas_SakuraCloudAPIRoot := iaas_SakuraCloudAPIRoot w;
     ext := x; calls := calls w ++ [c] |}.

(** ** Computations: a result or a panic, and the world afterwards *)

Inductive outcome (A : Type) : Type :=
| Returns (a : A)
| Panics.
Arguments Returns {A} a.
Arguments Panics {A}.

Definition M (A : Type) : Type := World -> outcome A * World.

Definition ret {A : Type} (a : A) : M A := fun w => (Returns a, w).

Definition bind {A B : Type} (m : M A) (k : A -> M B) : M B :=
  fun w =>
    match m w with
    | (Returns a, w') => k a w'
    | (Panics, w') => (Panics, w')
    end.

Definition panic {A : Type} : M A := fun w => (Panics, w).

Notation "x <- m ;; k" := (bind m (fun x => k))
  (at level 100, m at next level, right associativity).
Notation "m ;;; k" := (bind m (fun _ => k))
  (at level 100, right associativity).

(** [os.Environ], as the [env] package sees it. *)
Definition get_environ : M (gmap string string) :=
  fun w => (Returns (environ w), w).

(** [&Config{...}]: a new object at an address not in use. *)
Definition alloc_Config (c : Config) : M (option loc) :=
  fun w =>
    let l := fresh (dom (heap w)) in
    (Returns (Some l), with_heap (<[l := c]> (heap w)) w).

(** Reading a field through a [*Config]. *)
Definition load_Config (p : option loc) : M Config :=
  fun w =>
    match p with
    | None => (Panics, w)
    | Some l =>
        match heap w !! l with
        | Some c => (Returns c, w)
        | None => (Panics, w)
        end
    end.

(** Assigning a field through a [*Config]. *)
Definition update_Config (p : option loc) (f : Config -> Config) : M unit :=
  c <- load_Config p ;;
  fun w =>
    match p with
    | Some l => (Returns tt, with_heap (<[l := f c]> (heap w)) w)
    | None => (Panics, w)
    end.

(** Reading a field through a [*DNSProvider]. *)
Definition deref_DNSProvider (d : option DNSProvider) : M DNSProvider :=
  match d with
  | Some p => ret p
  | None => panic
  end.

Definition set_Token (s : string) (c : Config) : Config :=
  {| Token := s; Secret := Secret c;
     PropagationTimeout := PropagationTimeout c;
     PollingInterval := PollingInterval c; TTL := TTL c;
     HTTPClient := HTTPClient c |}.

Definition set_Secret (s : string) (c : Config) : Config :=
  {| Token := Token c; Secret := s;
     PropagationTimeout := PropagationTimeout c;
     PollingInterval := PollingInterval c; TTL := TTL c;
     HTTPClient := HTTPClient c |}.

Definition set_UserAgent (s : string) (o : api_CallerOptions) : api_CallerOptions :=
  {| Options := {| AccessToken := AccessToken (Options o);
                   AccessTokenSecret := AccessTokenSecret (Options o);
                   HttpClient := HttpClient (Options o);
                   UserAgent := s |};
     APIRootURL := APIRootURL o; DefaultZone := DefaultZone o;
     Zones := Zones o |}.

Definition set_APIRootURL (s : string) (o : api_CallerOptions) : api_CallerOptions :=
  {| Options := Options o; APIRootURL := s; DefaultZone := DefaultZone o;
     Zones := Zones o |}.

(** Assignments to the package-level variables. *)
Definition assign_DefaultStatePollingTimeout (t : Z) : M unit :=
  fun w => (Returns tt, with_DefaultStatePollingTimeout t w).
Definition assign_APIDefaultZone (z : string) : M unit :=
  fun w => (Returns tt, with_APIDefaultZone z w).
Definition assign_SakuraCloudZones (zs : list string) : M unit :=
  fun w => (Returns tt, with_SakuraCloudZones zs w).
Definition assign_SakuraCloudAPIRoot (r : string) : M unit :=
  fun w => (Returns tt, with_SakuraCloudAPIRoot r w).

(** [dns01.GetChallengeInfo(domain, keyAuth)] in the current world. *)
Definition call_GetChallengeInfo (domain keyAuth : string) : M ChallengeInfo :=
  fun w =>
    (Returns (dns01_GetChallengeInfo domain keyAuth (environ w) (ext w)), w).

(** [api.DefaultOption()] in the current world. *)
Definition call_DefaultOption : M (api_CallerOptions + error) :=
  fun w => (Returns (api_DefaultOption (environ w) (ext w)), w).

(** [d.addTXTRecord(fqdn, value, ttl)]: the helper runs on the outside
    world and the call is recorded. *)
Definition call_addTXTRecord (d : option DNSProvider) (fqdn value : string)
    (ttl : Z) : M (option error) :=
  fun w =>
    let '(err, x) := addTXTRecord d fqdn value ttl (ext w) in
    (Returns err, with_call (CallAddTXTRecord fqdn value ttl) x w).

(** [d.cleanupTXTRecord(fqdn, value)] *)
Definition call_cleanupTXTRecord (d : option DNSProvider) (fqdn value : string)
    : M (option error) :=
  fun w =>
    let '(err, x) := cleanupTXTRecord d fqdn value (ext w) in
    (Returns err, with_call (CallCleanupTXTRecord fqdn value) x w).

(** Modelled from the spec: [env.Get] (package [platform/config/env]) is not
    part of the file.  It reads each of the named variables; it fails when
    one of them is unset, and otherwise returns their values by name. *)
Definition env_Get (names : list string) (e : gmap string string)
    : gmap string string + error :=
  match List.filter (fun n => bool_decide (e !! n = None)) names with
  | [] => inl (list_to_map (List.map (fun n => (n, default "" (e !! n))) names))
  | missing => inr (env_Get_error missing)
  end.

(** [values[name]] on a Go map: the empty string when the key is absent. *)
Definition map_index (values : gmap string string) (name : string) : string :=
  default "" (values !! name).

(** ** The package *)

(** [func NewDefaultConfig() *Config] *)
Definition NewDefaultConfig : M (option loc) :=
  e <- get_environ ;;
  alloc_Config
    {| Token := "";
       Secret := "";
       TTL := env_GetOrDefaultInt EnvTTL dns01_DefaultTTL e;
       PropagationTimeout :=
         env_GetOrDefaultSecond EnvPropagationTimeout dns01_DefaultPropagationTimeout e;
       PollingInterval :=
         env_GetOrDefaultSecond EnvPollingInterval dns01_DefaultPollingInterval e;
       HTTPClient :=
         Some {| Client_Timeout :=
                   env_GetOrDefaultSecond EnvHTTPTimeout (10 * time_Second) e |} |}.

(** [func newCaller(opts *api.CallerOptions) iaas.APICaller].  The function
    writes to [*opts]; the options as it leaves them are returned next to
    the caller. *)
Definition newCaller (opts : api_CallerOptions)
    : M (iaas_APICaller * api_CallerOptions) :=
  let opts :=
    if String.eqb (UserAgent (Options opts)) ""
    then set_UserAgent iaas_DefaultUserAgent opts
    else opts in
  let caller := iaas_NewClientWithOptions (Options opts) in
  assign_DefaultStatePollingTimeout (72 * time_Hour) ;;;
  (if negb (String.eqb (DefaultZone opts) "")
   then assign_APIDefaultZone (DefaultZone opts)
   else ret tt) ;;;
  (if (0 <? List.length (Zones opts))%nat
   then assign_SakuraCloudZones (Zones opts)
   else ret tt) ;;;
  opts <-
    (if negb (String.eqb (APIRootURL opts) "")
     then
       let opts :=
         if strings_HasSuffix (APIRootURL opts) "/"
         then set_APIRootURL (strings_TrimRight (APIRootURL opts) "/") opts
         else opts in
       assign_SakuraCloudAPIRoot (APIRootURL opts) ;;;
       ret opts
     else ret opts) ;;
  ret (caller, opts).

(** [func newCallerWithOptions(opts *api.CallerOptions) iaas.APICaller] *)
Definition newCallerWithOptions (opts : api_CallerOptions)
    : M (iaas_APICaller * api_CallerOptions) :=
  newCaller opts.

(** The [&api.CallerOptions{Options: &client.Options{...}}] literal of
    [NewDNSProviderConfig]. *)
Definition provider_options (c : Config) : api_CallerOptions :=
  {| Options :=
       {| AccessToken := Token c;
          AccessTokenSecret := Secret c;
          HttpClient := HTTPClient c;
          UserAgent := iaas_DefaultUserAgent +:+ " " +:+ useragent_Get |};
     APIRootURL := ""; DefaultZone := ""; Zones := [] |}.

(** [func NewDNSProviderConfig(config *Config)], returning a [*DNSProvider] and an [error] *)
Definition NewDNSProviderConfig (config : option loc)
    : M (option DNSProvider * option error) :=
  match config with
  | None =>
      ret (None, Some (errors_New
        "sakuracloud: the configuration of the DNS provider is nil"))
  | Some _ =>
      c <- load_Config config ;;
      if String.eqb (Token c) "" then
        ret (None, Some (errors_New "sakuracloud: AccessToken is missing"))
      else if String.eqb (Secret c) "" then
        ret (None, Some (errors_New "sakuracloud: AccessSecret is missing"))
      else
        r <- call_DefaultOption ;;
        match r with
        | inr err => ret (None, Some (fmt_Errorf_w "sakuracloud: " err))
        | inl defaultOption =>
            let options := provider_options c in
            co <- newCallerWithOptions (api_MergeOptions defaultOption options) ;;
            ret (Some {| client := iaas_NewDNSOp (fst co); config := config |},
                 None)
        end
  end.

(** [func NewDNSProvider()], returning a [*DNSProvider] and an [error] *)
Definition NewDNSProvider : M (option DNSProvider * option error) :=
  e <- get_environ ;;
  match env_Get [EnvAccessToken; EnvAccessTokenSecret] e with
  | inr err => ret (None, Some (fmt_Errorf_w "sakuracloud: " err))
  | inl values =>
      config <- NewDefaultConfig ;;
      update_Config config (set_Token (map_index values EnvAccessToken)) ;;;
      update_Config config (set_Secret (map_index values EnvAccessTokenSecret)) ;;;
      NewDNSProviderConfig config
  end.

(** [func (d *DNSProvider) Present(domain, token, keyAuth string) error] *)
Definition Present (d : option DNSProvider) (domain token keyAuth : string)
    : M (option error) :=
  info <- call_GetChallengeInfo domain keyAuth ;;
  p <- deref_DNSProvider d ;;
  c <- load_Config (config p) ;;
  err <- call_addTXTRecord d (EffectiveFQDN info) (Value info) (TTL c) ;;
  match err with
  | Some e => ret (Some (fmt_Errorf_w "sakuracloud: " e))
  | None => ret None
  end.

(** [func (d *DNSProvider) CleanUp(domain, token, keyAuth string) error] *)
Definition CleanUp (d : option DNSProvider) (domain token keyAuth : string)
    : M (option error) :=
  info <- call_GetChallengeInfo domain keyAuth ;;
  err <- call_cleanupTXTRecord d (EffectiveFQDN info) (Value info) ;;
  match err with
  | Some e => ret (Some (fmt_Errorf_w "sakuracloud: " e))
  | None => ret None
  end.

(** [func (d *DNSProvider) Timeout() (timeout, interval time.Duration)] *)
Definition Timeout (d : option DNSProvider) : M (Z * Z) :=
  p <- deref_DNSProvider d ;;
  c <- load_Config (config p) ;;
  p' <- deref_DNSProvider d ;;
  c' <- load_Config (config p') ;;
  ret (PropagationTimeout c, PollingInterval c').

End Provider.

Arguments World {_}.
Arguments M {_} A.
Arguments Returns {A} a.
Arguments Panics {A}.

(** ** The words of the specification, for comparison *)

(** [s] without its trailing ["/"] characters: of the last character and the
    rest already stripped, a ["/"] is kept only when something follows it. *)
Fixpoint strip_trailing_slashes (s : string) : string :=
  match s with
  | EmptyString => EmptyString
  | String c s' =>
      match strip_trailing_slashes s' with
      | EmptyString => if Ascii.eqb c "/" then EmptyString else String c EmptyString
      | t => String c t
      end
  end.

(** [k] times ["/"]. *)
Fixpoint slashes (k : nat) : string :=
  match k with
  | O => EmptyString
  | S k' => String "/" (slashes k')
  end.


(** The part of the world that belongs to the process: the environment,
    the [Config] objects and the four package-level variables are in [w'] as
    they are in [w]. *)
Definition same_process_state {E : Externals} (w w' : World) : Prop :=
  environ w' = environ w
  /\ heap w' = heap w
  /\ defaults_DefaultStatePollingTimeout w' = defaults_DefaultStatePollingTimeout w
  /\ iaas_APIDefaultZone w' = iaas_APIDefaultZone w
  /\ iaas_SakuraCloudZones w' = iaas_SakuraCloudZones w
  /\ iaas_SakuraCloudAPIRoot w' = iaas_SakuraCloudAPIRoot w.

(** [newCaller] in closed form: the options as it leaves them. *)
Definition newCaller_opts {E : Externals} (opts : api_CallerOptions)
    : api_CallerOptions :=
  {| Options :=
       {| AccessToken := AccessToken (Options opts);
          AccessTokenSecret := AccessTokenSecret (Options opts);
          HttpClient := HttpClient (Options opts);
          UserAgent :=
            if String.eqb (UserAgent (Options opts)) ""
            then iaas_DefaultUserAgent else UserAgent (Options opts) |};
     APIRootURL := strip_trailing_slashes (APIRootURL opts);
     DefaultZone := DefaultZone opts;
     Zones := Zones opts |}.

(** [newCaller] in closed form: the world as it leaves it. *)
Definition newCaller_world {E : Externals} (opts : api_CallerOptions)
    (w : World) : World :=
  @Build_World E
    (environ w)
    (heap w)
    (72 * time_Hour)
    (if String.eqb (DefaultZone opts) ""
     then iaas_APIDefaultZone w else DefaultZone opts)
    (match Zones opts with
     | [] => iaas_SakuraCloudZones w
     | _ :: _ => Zones opts
     end)
    (if String.eqb (APIRootURL opts) ""
     then iaas_SakuraCloudAPIRoot w
     else strip_trailing_slashes (APIRootURL opts))
    (ext w)
    (calls w).

(** A byte below 128. *)
Definition is_ascii (c : ascii) : bool := (nat_of_ascii c <? 128)%nat.

(** ** The DNS API under the two helpers *)

(** A request to the DNS API. *)
Inductive APIRequest : Type :=
| CreateTXT (fqdn value : string) (ttl : Z)
| DeleteTXT (fqdn value : string).

(** Modelled from the spec: the body of [addTXTRecord] (file [client.go] of
    the package) is not part of the file.  It issues a single create call
    to the external DNS API and returns the error of that call.  [send] is
    the API, acting on the service; the outside world is the service and
    the requests it has received, oldest first. *)
Definition spec_addTXTRecord {S : Type}
    (send : APIRequest -> S -> option error * S)
    (d : option DNSProvider) (fqdn value : string) (ttl : Z)
    (x : S * list APIRequest) : option error * (S * list APIRequest) :=
  let '(err, service) := send (CreateTXT fqdn value ttl) (fst x) in
  (err, (service, snd x ++ [CreateTXT fqdn value ttl])).

(** Modelled from the spec: the body of [cleanupTXTRecord] (file
    [client.go] of the package) is not part of the file.  It issues a
    single delete call to the external DNS API and returns the error of
    that call. *)
Definition spec_cleanupTXTRecord {S : Type}
    (send : APIRequest -> S -> option error * S)
    (d : option DNSProvider) (fqdn value : string)
    (x : S * list APIRequest) : option error * (S * list APIRequest) :=
  let '(err, service) := send (DeleteTXT fqdn value) (fst x) in
  (err, (service, snd x ++ [DeleteTXT fqdn value])).

(** The imports [E0] with the two helpers modelled from the spec over the
    API [send]; the rest of [E0] sees the service as before. *)
Definition spec_helpers (E0 : Externals)
    (send : APIRequest -> @Ext E0 -> option error * @Ext E0) : Externals :=
  {| Ext := @Ext E0 * list APIRequest;
     dns01_GetChallengeInfo := fun domain keyAuth e x =>
       @dns01_GetChallengeInfo E0 domain keyAuth e (fst x);
     dns01_DefaultTTL := @dns01_DefaultTTL E0;
     dns01_DefaultPropagationTimeout := @dns01_DefaultPropagationTimeout E0;
     dns01_DefaultPollingInterval := @dns01_DefaultPollingInterval E0;
     env_GetOrDefaultInt := @env_GetOrDefaultInt E0;
     env_GetOrDefaultSecond := @env_GetOrDefaultSecond E0;
     env_Get_error := @env_Get_error E0;
     useragent_Get := @useragent_Get E0;
     iaas_DefaultUserAgent := @iaas_DefaultUserAgent E0;
     api_DefaultOption := fun e x => @api_DefaultOption E0 e (fst x);
     api_MergeOptions := @api_MergeOptions E0;
     addTXTRecord := spec_addTXTRecord send;
     cleanupTXTRecord := spec_cleanupTXTRecord send |}.

(** The service and the requests it has received, in a world of
    [spec_helpers]. *)
Definition service {E0 : Externals}
    {send : APIRequest -> @Ext E0 -> option error * @Ext E0}
    (w : @World (spec_helpers E0 send)) : @Ext E0 :=
  fst (ext w : @Ext E0 * list APIRequest).

Definition requests {E0 : Externals}
    {send : APIRequest -> @Ext E0 -> option error * @Ext E0}
    (w : @World (spec_helpers E0 send)) : list APIRequest :=
  snd (ext w : @Ext E0 * list APIRequest).

(** ** A small instance of the imports, to run the package on

    A DNS service that keeps the TXT records it is given, in a process whose
    default options name a zone, a list of zones and an API root. *)

Definition demo_GetChallengeInfo (domain keyAuth : string) : ChallengeInfo :=
  {| EffectiveFQDN := "_acme-challenge." +:+ domain +:+ ".";
     Value := keyAuth |}.

Definition demo_DefaultOption : api_CallerOptions :=
  {| Options := {| AccessToken := ""; AccessTokenSecret := "";
                   HttpClient := None; UserAgent := "" |};
     APIRootURL := "https://dns.example/api//";
     DefaultZone := "is1a";
     Zones := ["is1a"; "tk1a"] |}.

(** Credentials and agent of the second, the rest of the first. *)
Definition demo_MergeOptions (a b : api_CallerOptions) : api_CallerOptions :=
  {| Options := Options b;
     APIRootURL := APIRootURL a;
     DefaultZone := DefaultZone a;
     Zones := Zones a |}.

Definition demo_addTXTRecord (d : option DNSProvider) (fqdn value : string)
    (ttl : Z) (records : list (string * string)) :=
  (@None error, records ++ [(fqdn, value)]).

Definition demo_cleanupTXTRecord (d : option DNSProvider) (fqdn value : string)
    (records : list (string * string)) :=
  (@None error,
   List.filter
     (fun r => negb (String.eqb (fst r) fqdn && String.eqb (snd r) value))
     records).

Definition demo : Externals :=
  {| Ext := list (string * string);
     dns01_GetChallengeInfo := fun domain keyAuth _ _ =>
                                 demo_GetChallengeInfo domain keyAuth;
     dns01_DefaultTTL := 120;
     dns01_DefaultPropagationTimeout := 60 * time_Second;
     dns01_DefaultPollingInterval := 2 * time_Second;
     env_GetOrDefaultInt := fun _ fallback _ => fallback;
     env_GetOrDefaultSecond := fun _ fallback _ => fallback;
     env_Get_error := fun _ => errors_New "some credentials information are missing";
     useragent_Get := "goacme-lego";
     iaas_DefaultUserAgent := "sacloud";
     api_DefaultOption := fun _ _ => inl demo_DefaultOption;
     api_MergeOptions := demo_MergeOptions;
     addTXTRecord := demo_addTXTRecord;
     cleanupTXTRecord := demo_cleanupTXTRecord |}.

(** The same process in front of a service that refuses every call. *)
Definition demo_down : Externals :=
  {| Ext := unit;
     dns01_GetChallengeInfo := fun domain keyAuth _ _ =>
                                 demo_GetChallengeInfo domain keyAuth;
     dns01_DefaultTTL := 120;
     dns01_DefaultPropagationTimeout := 60 * time_Second;
     dns01_DefaultPollingInterval := 2 * time_Second;
     env_GetOrDefaultInt := fun _ fallback _ => fallback;
     env_GetOrDefaultSecond := fun _ fallback _ => fallback;
     env_Get_error := fun _ => errors_New "some credentials information are missing";
     useragent_Get := "goacme-lego";
     iaas_DefaultUserAgent := "sacloud";
     api_DefaultOption := fun _ _ => inr (errors_New "no profile");
     api_MergeOptions := demo_MergeOptions;
     addTXTRecord := fun _ _ _ _ x => (Some (errors_New "503"), x);
     cleanupTXTRecord := fun _ _ _ x => (Some (errors_New "503"), x) |}.

Definition demo_config : Config :=
  {| Token := "token"; Secret := "secret";
     PropagationTimeout := 60 * time_Second;
     PollingInterval := 2 * time_Second;
     TTL := 120;
     HTTPClient := Some {| Client_Timeout := 10 * time_Second |} |}.

Definition demo_provider : DNSProvider :=
  {| config := Some 0%nat;
     client := iaas_NewDNSOp (iaas_NewClientWithOptions
                 {| AccessToken := "token"; AccessTokenSecret := "secret";
                    HttpClient := Some {| Client_Timeout := 10 * time_Second |};
                    UserAgent := "sacloud goacme-lego" |}) |}.

(** A world of [demo] with [demo_config] at address 0 and both credentials
    in the environment. *)
Definition demo_world : @World demo :=
  @Build_World demo
    (<[EnvAccessToken := "token"]> (<[EnvAccessTokenSecret := "secret"]> ∅))
    (<[0%nat := demo_config]> ∅)
    (20 * time_Minute)
    "is1b" ["is1b"] "https://secure.sakura.ad.jp/cloud/zone"
    (nil : list (string * string))
    [].

(** A world of [demo_down] with the same store and an empty environment. *)
Definition demo_down_world : @World demo_down :=
  @Build_World demo_down
    ∅
    (<[0%nat := demo_config]> ∅)
    (20 * time_Minute)
    "is1b" ["is1b"] "https://secure.sakura.ad.jp/cloud/zone"
    tt
    [].

(** The zero value of [DNSProvider] but for its client. *)
Definition demo_blank_provider : DNSProvider :=
  {| config := None; client := client demo_provider |}.

(** [demo_world] with two more configurations: one without Token and
    Secret at address 1, one without Secret at address 2. *)
Definition demo_checks_world : @World demo :=
  with_heap
    (<[2%nat := set_Secret "" demo_config]>
       (<[1%nat := set_Secret "" (set_Token "" demo_config)]>
          (heap demo_world)))
    demo_world.

(** An API that refuses every request, for [demo]. *)
Definition demo_send_down (r : APIRequest) (records : list (string * string))
    : option error * list (string * string) :=
  (Some (errors_New "503"), records).

(** [demo_world] seen through [spec_helpers]: no request received yet. *)
Definition demo_api_world : @World (spec_helpers demo demo_send_down) :=
  @Build_World (spec_helpers demo demo_send_down)
    (<[EnvAccessToken := "token"]> (<[EnvAccessTokenSecret := "secret"]> ∅))
    (<[0%nat := demo_config]> ∅)
    (20 * time_Minute)
    "is1b" ["is1b"] "https://secure.sakura.ad.jp/cloud/zone"
    ((nil : list (string * string)), (nil : list APIRequest))
    [].






(** * Properties *)

(** ** Strings *)

Lemma append_nil (t : string) : "" +:+ t = t.
Proof. reflexivity. Qed.

Lemma append_cons (a : ascii) (s t : string) :
  String a s +:+ t = String a (s +:+ t).
Proof. reflexivity. Qed.

Ltac string_step := rewrite ?append_cons, ?append_nil; simpl.

Lemma length_snoc (s : string) (c : ascii) :
  String.length (s +:+ String c "") = S (String.length s).
Proof. induction s as [|a s IH]; string_step; [reflexivity | now rewrite IH]. Qed.

Lemma get_snoc_last (s : string) (c : ascii) :
  String.get (String.length s) (s +:+ String c "") = Some c.
Proof. induction s as [|a s IH]; string_step; [reflexivity | exact IH]. Qed.

Lemma substring_snoc_init (s : string) (c : ascii) :
  substring 0 (String.length s) (s +:+ String c "") = s.
Proof. induction s as [|a s IH]; string_step; [reflexivity | now rewrite IH]. Qed.

Lemma substring_snoc_last (s : string) (c : ascii) :
  substring (String.length s) 1 (s +:+ String c "") = String c "".
Proof. induction s as [|a s IH]; string_step; [reflexivity | exact IH]. Qed.

Lemma append_empty_r (s : string) : s +:+ "" = s.
Proof. induction s as [|a s IH]; string_step; [reflexivity | now rewrite IH]. Qed.

Lemma append_assoc (s t u : string) : (s +:+ t) +:+ u = s +:+ (t +:+ u).
Proof. induction s as [|a s IH]; string_step; [reflexivity | now rewrite IH]. Qed.

(** A string that is not empty has a last character. *)
Lemma string_last (a : ascii) (s : string) :
  exists s' c, String a s = s' +:+ String c "".
Proof.
  revert a. induction s as [|b s IH]; intros a.
  - exists "", a. reflexivity.
  - destruct (IH b) as (s' & c & Heq).
    exists (String a s'), c. rewrite append_cons. now rewrite Heq.
Qed.

(** Induction on strings from the right. *)
Lemma string_snoc_ind (P : string -> Prop) :
  P "" ->
  (forall s c, P s -> P (s +:+ String c "")) ->
  forall s, P s.
Proof.
  intros Hnil Hsnoc s.
  remember (String.length s) as n eqn:Hn.
  revert s Hn. induction n as [|n IH]; intros s Hn.
  - destruct s; [exact Hnil | discriminate].
  - destruct s as [|a s]; [discriminate|].
    destruct (string_last a s) as (s' & c & Heq).
    rewrite Heq in *. rewrite length_snoc in Hn.
    apply Hsnoc, IH. congruence.
Qed.

Lemma slashes_snoc (k : nat) : slashes k +:+ "/" = slashes (S k).
Proof.
  induction k as [|k IH]; [reflexivity|].
  simpl slashes. rewrite append_cons, IH. reflexivity.
Qed.

Lemma strip_snoc_slash (s : string) :
  strip_trailing_slashes (s +:+ "/") = strip_trailing_slashes s.
Proof.
  induction s as [|a s IH]; string_step; [reflexivity|].
  rewrite IH. destruct (strip_trailing_slashes s); reflexivity.
Qed.

Lemma strip_snoc_other (s : string) (c : ascii) :
  Ascii.eqb c "/" = false ->
  strip_trailing_slashes (s +:+ String c "") = s +:+ String c "".
Proof.
  intros Hc. induction s as [|a s IH]; string_step.
  - now rewrite Hc.
  - rewrite IH. destruct s; reflexivity.
Qed.

Lemma HasSuffix_snoc (s : string) (c : ascii) :
  strings_HasSuffix (s +:+ String c "") "/" = Ascii.eqb c "/".
Proof.
  unfold strings_HasSuffix. rewrite length_snoc. simpl String.length.
  replace (S (String.length s) - 1)%nat with (String.length s) by lia.
  rewrite substring_snoc_last. simpl.
  destruct (Ascii.eqb c "/"); reflexivity.
Qed.

(** The loop of [strings.TrimRight], given turns enough, strips every
    trailing ["/"]. *)
Lemma trimRight_loop_slash (s : string) :
  forall fuel, (String.length s <= fuel)%nat ->
    trimRight_loop fuel s "/" = strip_trailing_slashes s.
Proof.
  induction s as [|s c IH] using string_snoc_ind; intros fuel Hfuel.
  - destruct fuel; reflexivity.
  - rewrite length_snoc in Hfuel.
    destruct fuel as [|fuel]; [lia|].
    simpl trimRight_loop. rewrite length_snoc.
    replace (S (String.length s) - 1)%nat with (String.length s) by lia.
    rewrite get_snoc_last, substring_snoc_init.
    unfold in_cutset. simpl.
    destruct (Ascii.eqb c "/") eqn:Hc; simpl.
    + apply Ascii.eqb_eq in Hc. subst c.
      rewrite strip_snoc_slash. apply IH. lia.
    + now rewrite strip_snoc_other.
Qed.

Lemma TrimRight_slash (s : string) :
  strings_TrimRight s "/" = strip_trailing_slashes s.
Proof. unfold strings_TrimRight. now apply trimRight_loop_slash. Qed.

(** A string without the suffix ["/"] has nothing to strip. *)
Lemma strip_no_suffix (s : string) :
  strings_HasSuffix s "/" = false -> strip_trailing_slashes s = s.
Proof.
  destruct s as [|a s]; [reflexivity|].
  destruct (string_last a s) as (s' & c & ->).
  rewrite HasSuffix_snoc. apply strip_snoc_other.
Qed.

(** What [newCaller] does to a root URL, guard included, is the stripping. *)
Lemma guarded_TrimRight (s : string) :
  (if strings_HasSuffix s "/" then strings_TrimRight s "/" else s)
  = strip_trailing_slashes s.
Proof.
  destruct (strings_HasSuffix s "/") eqn:Hs.
  - apply TrimRight_slash.
  - symmetry. now apply strip_no_suffix.
Qed.

(** The stripping removes a run of ["/"] at the end, and all of it. *)
Lemma strip_trailing_slashes_spec (s : string) :
  exists k, s = strip_trailing_slashes s +:+ slashes k
            /\ strings_HasSuffix (strip_trailing_slashes s) "/" = false.
Proof.
  induction s as [|s c (k & Hk & Hno)] using string_snoc_ind.
  - exists 0%nat. split; reflexivity.
  - destruct (Ascii.eqb c "/") eqn:Hc.
    + apply Ascii.eqb_eq in Hc. subst c. rewrite strip_snoc_slash.
      exists (S k). split; [|exact Hno].
      rewrite <- slashes_snoc, <- append_assoc. now rewrite <- Hk.
    + rewrite strip_snoc_other by exact Hc.
      exists 0%nat. simpl. rewrite append_empty_r. split; [reflexivity|].
      now rewrite HasSuffix_snoc.
Qed.

(** ** The package *)

Section Properties.
Context {E : Externals}.

(** Reading through a pointer to an object of the store. *)
Lemma load_Config_ok (l : loc) (c : Config) (w : World) :
  heap w !! l = Some c -> load_Config (Some l) w = (Returns c, w).
Proof. intros Hl. unfold load_Config. now rewrite Hl. Qed.

(** [Present] on a provider that has its configuration: the helper is
    called once, on the record of the challenge, and its error is wrapped. *)
Lemma Present_run (p : DNSProvider) (l : loc) (c : Config)
    (domain token keyAuth : string) (w : World) :
  config p = Some l -> heap w !! l = Some c ->
  let info := dns01_GetChallengeInfo domain keyAuth (environ w) (ext w) in
  let r := addTXTRecord (Some p) (EffectiveFQDN info) (Value info) (TTL c) (ext w) in
  Present (Some p) domain token keyAuth w
  = (Returns (option_map (fmt_Errorf_w "sakuracloud: ") (fst r)),
     with_call (CallAddTXTRecord (EffectiveFQDN info) (Value info) (TTL c))
               (snd r) w).
Proof.
  intros Hp Hl.
  unfold Present, bind, call_GetChallengeInfo, deref_DNSProvider, ret.
  rewrite Hp, (load_Config_ok l c w Hl). unfold call_addTXTRecord.
  destruct (addTXTRecord _ _ _ _ _) as [[e|] x]; reflexivity.
Qed.

(** [CleanUp], on any receiver. *)
Lemma CleanUp_run (d : option DNSProvider) (domain token keyAuth : string)
    (w : World) :
  let info := dns01_GetChallengeInfo domain keyAuth (environ w) (ext w) in
  let r := cleanupTXTRecord d (EffectiveFQDN info) (Value info) (ext w) in
  CleanUp d domain token keyAuth w
  = (Returns (option_map (fmt_Errorf_w "sakuracloud: ") (fst r)),
     with_call (CallCleanupTXTRecord (EffectiveFQDN info) (Value info))
               (snd r) w).
Proof.
  unfold CleanUp, bind, call_GetChallengeInfo, ret, call_cleanupTXTRecord.
  destruct (cleanupTXTRecord _ _ _ _) as [[e|] x]; reflexivity.
Qed.

(** [Present] on a provider without configuration panics on
    [d.config.TTL], before any call. *)
Lemma Present_without_config (p : DNSProvider)
    (domain token keyAuth : string) (w : World) :
  config p = None ->
  Present (Some p) domain token keyAuth w = (Panics, w).
Proof.
  intros Hp.
  unfold Present, bind, call_GetChallengeInfo, deref_DNSProvider, ret,
    load_Config.
  now rewrite Hp.
Qed.


(** C3: [Present] returns nil exactly when [addTXTRecord] returns nil, and
    an error [e] of [addTXTRecord] comes back wrapped under the prefix
    ["sakuracloud: "]; the same for [CleanUp] and [cleanupTXTRecord]. *)
Theorem C3_errors_are_propagated
    (p : DNSProvider) (l : loc) (c : Config)
    (domain token keyAuth : string) (w : World) :
  config p = Some l -> heap w !! l = Some c ->
  let info := dns01_GetChallengeInfo domain keyAuth (environ w) (ext w) in
  let added :=
    fst (addTXTRecord (Some p) (EffectiveFQDN info) (Value info) (TTL c) (ext w)) in
  let removed :=
    fst (cleanupTXTRecord (Some p) (EffectiveFQDN info) (Value info) (ext w)) in
  let presented := fst (Present (Some p) domain token keyAuth w) in
  let cleaned := fst (CleanUp (Some p) domain token keyAuth w) in
  (presented = Returns None <-> added = None)
  /\ (forall e, added = Some e ->
        exists e', presented = Returns (Some e')
                   /\ e' = fmt_Errorf_w "sakuracloud: " e
                   /\ Unwrap e' = Some e
                   /\ Error e' = "sakuracloud: " +:+ Error e)
  /\ (cleaned = Returns None <-> removed = None)
  /\ (forall e, removed = Some e ->
        exists e', cleaned = Returns (Some e')
                   /\ e' = fmt_Errorf_w "sakuracloud: " e
                   /\ Unwrap e' = Some e
                   /\ Error e' = "sakuracloud: " +:+ Error e).
Proof.
  intros Hp Hl info added removed presented cleaned.
  subst presented cleaned.
  rewrite (Present_run p l c domain token keyAuth w Hp Hl), CleanUp_run.
  fold info. fold added. fold removed. simpl fst.
  repeat split.
  - destruct added; simpl; [discriminate | reflexivity].
  - intros ->. reflexivity.
  - intros e ->. eexists. repeat split; reflexivity.
  - destruct removed; simpl; [discriminate | reflexivity].
  - intros ->. reflexivity.
  - intros e ->. eexists. repeat split; reflexivity.
Qed.

(** C5: [Timeout] returns the pair (config.PropagationTimeout,
    config.PollingInterval), in that order, and leaves the world as it
    is. *)
Theorem C5_Timeout_returns_config_pair
    (p : DNSProvider) (l : loc) (c : Config) (w : World) :
  config p = Some l -> heap w !! l = Some c ->
  Timeout (Some p) w = (Returns (PropagationTimeout c, PollingInterval c), w).
Proof.
  intros Hp Hl. unfold Timeout, bind, deref_DNSProvider, ret.
  do 2 (rewrite ?Hp, (load_Config_ok l c w Hl); cbn beta iota).
  reflexivity.
Qed.

(** [Timeout] writes nothing, on any receiver. *)
Lemma Timeout_frame (d : option DNSProvider) (w : World) :
  snd (Timeout d w) = w.
Proof.
  unfold Timeout, bind, deref_DNSProvider, ret, panic, load_Config.
  destruct d as [p|]; [|reflexivity].
  destruct (config p) as [l|]; [|reflexivity].
  destruct (heap w !! l) eqn:Hl; cbn beta iota; rewrite ?Hl; reflexivity.
Qed.

(** C9: the token does not matter: two calls of [Present] that differ only
    in the token return the same result and leave the same world, calls
    issued included; the same for [CleanUp]. *)
Theorem C9_token_is_ignored
    (d : option DNSProvider) (domain t1 t2 keyAuth : string) (w : World) :
  Present d domain t1 keyAuth w = Present d domain t2 keyAuth w
  /\ CleanUp d domain t1 keyAuth w = CleanUp d domain t2 keyAuth w.
Proof. split; reflexivity. Qed.

(** *** [newCaller] *)

(** The four tests of [newCaller], each decided. *)
Ltac newCaller_fields :=
  cbn [Options UserAgent DefaultZone Zones APIRootURL set_UserAgent
       set_APIRootURL AccessToken AccessTokenSecret HttpClient
       negb List.length Nat.ltb Nat.leb fst snd
       with_DefaultStatePollingTimeout with_APIDefaultZone
       with_SakuraCloudZones with_SakuraCloudAPIRoot
       defaults_DefaultStatePollingTimeout iaas_APIDefaultZone
       iaas_SakuraCloudZones iaas_SakuraCloudAPIRoot
       environ heap ext calls].

Ltac newCaller_cases opts :=
  destruct opts as [[tok sec hc ua] root zone zones];
  unfold newCallerWithOptions, newCaller, bind, ret,
    assign_DefaultStatePollingTimeout, assign_APIDefaultZone,
    assign_SakuraCloudZones, assign_SakuraCloudAPIRoot;
  newCaller_fields;
  destruct (String.eqb_spec ua "") as [Hua|Hua]; newCaller_fields;
  destruct (String.eqb_spec zone "") as [Hzone|Hzone]; newCaller_fields;
  destruct zones as [|z zones]; newCaller_fields;
  destruct (String.eqb_spec root "") as [Hroot|Hroot]; newCaller_fields;
  destruct (strings_HasSuffix root "/") eqn:Hsuffix; newCaller_fields.

(** [newCaller] returns: it has no panic of its own. *)
Lemma newCaller_returns (opts : api_CallerOptions) (w : World) :
  exists opts',
    fst (newCaller opts w) = Returns (iaas_NewClientWithOptions (Options opts'), opts')
    /\ UserAgent (Options opts')
       = (if decide (UserAgent (Options opts) = "")
          then iaas_DefaultUserAgent else UserAgent (Options opts))
    /\ AccessToken (Options opts') = AccessToken (Options opts)
    /\ AccessTokenSecret (Options opts') = AccessTokenSecret (Options opts)
    /\ HttpClient (Options opts') = HttpClient (Options opts).
Proof.
  newCaller_cases opts;
    lazymatch goal with
    | |- ex (fun _ => Returns (_, ?o) = _ /\ _) => exists o
    end;
    newCaller_fields; (split; [reflexivity|]);
    case_decide; try congruence; repeat split; reflexivity.
Qed.

(** [newCaller] assigns 72 hours to [defaults.DefaultStatePollingTimeout],
    whatever its options. *)
Lemma newCaller_DefaultStatePollingTimeout (opts : api_CallerOptions) (w : World) :
  defaults_DefaultStatePollingTimeout (snd (newCaller opts w)) = 72 * time_Hour.
Proof. newCaller_cases opts; reflexivity. Qed.

Lemma newCaller_APIDefaultZone (opts : api_CallerOptions) (w : World) :
  iaas_APIDefaultZone (snd (newCaller opts w))
  = (if decide (DefaultZone opts = "")
     then iaas_APIDefaultZone w else DefaultZone opts).
Proof.
  newCaller_cases opts; case_decide; try congruence; reflexivity.
Qed.

Lemma newCaller_SakuraCloudZones (opts : api_CallerOptions) (w : World) :
  iaas_SakuraCloudZones (snd (newCaller opts w))
  = (if decide (Zones opts = [])
     then iaas_SakuraCloudZones w else Zones opts).
Proof.
  newCaller_cases opts; case_decide; try congruence; reflexivity.
Qed.

Lemma newCaller_SakuraCloudAPIRoot (opts : api_CallerOptions) (w : World) :
  iaas_SakuraCloudAPIRoot (snd (newCaller opts w))
  = (if decide (APIRootURL opts = "")
     then iaas_SakuraCloudAPIRoot w
     else strip_trailing_slashes (APIRootURL opts)).
Proof.
  newCaller_cases opts; case_decide; try congruence; try reflexivity;
    first [ apply TrimRight_slash | symmetry; now apply strip_no_suffix ].
Qed.

(** [newCaller] touches the four package-level variables and nothing else. *)
Lemma newCaller_frame (opts : api_CallerOptions) (w : World) :
  let w' := snd (newCaller opts w) in
  environ w' = environ w /\ heap w' = heap w
  /\ ext w' = ext w /\ calls w' = calls w.
Proof. newCaller_cases opts; repeat split; reflexivity. Qed.

(** C8: [newCaller] assigns [opts.DefaultZone] to [iaas.APIDefaultZone] only
    when it is not empty, [opts.Zones] to [iaas.SakuraCloudZones] only when
    it is not empty, builds the caller with [iaas.DefaultUserAgent] in place
    of an empty [opts.UserAgent], and, when [opts.APIRootURL] is not empty,
    assigns it to [iaas.SakuraCloudAPIRoot] without its trailing ["/"]
    characters: what is assigned is the URL less a final run of ["/"], and
    does not end in ["/"]. *)
Theorem C8_newCaller_conditional_overrides
    (opts : api_CallerOptions) (w : World) :
  let w' := snd (newCaller opts w) in
  let root := strip_trailing_slashes (APIRootURL opts) in
  iaas_APIDefaultZone w'
    = (if decide (DefaultZone opts = "")
       then iaas_APIDefaultZone w else DefaultZone opts)
  /\ iaas_SakuraCloudZones w'
    = (if decide (Zones opts = [])
       then iaas_SakuraCloudZones w else Zones opts)
  /\ (exists opts',
        fst (newCaller opts w)
          = Returns (iaas_NewClientWithOptions (Options opts'), opts')
        /\ UserAgent (Options opts')
           = (if decide (UserAgent (Options opts) = "")
              then iaas_DefaultUserAgent else UserAgent (Options opts)))
  /\ iaas_SakuraCloudAPIRoot w'
    = (if decide (APIRootURL opts = "")
       then iaas_SakuraCloudAPIRoot w else root)
  /\ (exists k, APIRootURL opts = root +:+ slashes k)
  /\ strings_HasSuffix root "/" = false.
Proof.
  intros w' root. subst w' root.
  split; [apply newCaller_APIDefaultZone|].
  split; [apply newCaller_SakuraCloudZones|].
  split.
  { destruct (newCaller_returns opts w) as (opts' & Hr & Hua & _).
    exists opts'. split; assumption. }
  split; [apply newCaller_SakuraCloudAPIRoot|].
  destruct (strip_trailing_slashes_spec (APIRootURL opts)) as (k & Hk & Hno).
  split; [exists k; exact Hk | exact Hno].
Qed.

(** *** The constructors *)

Lemma heap_with_heap (h : gmap loc Config) (w : World) :
  heap (with_heap h w) = h.
Proof. reflexivity. Qed.

Lemma with_heap_with_heap (h1 h2 : gmap loc Config) (w : World) :
  with_heap h2 (with_heap h1 w) = with_heap h2 w.
Proof. reflexivity. Qed.

Lemma update_Config_ok (l : loc) (c : Config) (f : Config -> Config) (w : World) :
  heap w !! l = Some c ->
  update_Config (Some l) f w = (Returns tt, with_heap (<[l := f c]> (heap w)) w).
Proof.
  intros Hl. unfold update_Config, bind.
  now rewrite (load_Config_ok l c w Hl).
Qed.

(** [NewDefaultConfig] allocates one object and returns its address. *)
Lemma NewDefaultConfig_run (w : World) :
  exists l c,
    heap w !! l = None
    /\ NewDefaultConfig w = (Returns (Some l), with_heap (<[l := c]> (heap w)) w)
    /\ c = {| Token := "";
              Secret := "";
              PropagationTimeout :=
                env_GetOrDefaultSecond "SAKURACLOUD_PROPAGATION_TIMEOUT"
                  dns01_DefaultPropagationTimeout (environ w);
              PollingInterval :=
                env_GetOrDefaultSecond "SAKURACLOUD_POLLING_INTERVAL"
                  dns01_DefaultPollingInterval (environ w);
              TTL := env_GetOrDefaultInt "SAKURACLOUD_TTL" dns01_DefaultTTL (environ w);
              HTTPClient :=
                Some {| Client_Timeout :=
                          env_GetOrDefaultSecond "SAKURACLOUD_HTTP_TIMEOUT"
                            10000000000 (environ w) |} |}.
Proof.
  eexists (fresh (dom (heap w))), _. split; [|split; reflexivity].
  apply not_elem_of_dom, is_fresh.
Qed.

(** C6: [NewDefaultConfig] returns a new configuration whose TTL is
    [env.GetOrDefaultInt] of SAKURACLOUD_TTL with fallback
    [dns01.DefaultTTL], whose propagation timeout and polling interval are
    [env.GetOrDefaultSecond] of SAKURACLOUD_PROPAGATION_TIMEOUT and
    SAKURACLOUD_POLLING_INTERVAL with fallbacks
    [dns01.DefaultPropagationTimeout] and [dns01.DefaultPollingInterval],
    whose HTTP client has the timeout of SAKURACLOUD_HTTP_TIMEOUT with
    fallback 10 seconds, and whose Token and Secret are empty. *)
Theorem C6_NewDefaultConfig_from_environment (w : World) :
  exists l c,
    NewDefaultConfig w = (Returns (Some l), with_heap (<[l := c]> (heap w)) w)
    /\ heap w !! l = None
    /\ TTL c = env_GetOrDefaultInt "SAKURACLOUD_TTL" dns01_DefaultTTL (environ w)
    /\ PropagationTimeout c
       = env_GetOrDefaultSecond "SAKURACLOUD_PROPAGATION_TIMEOUT"
           dns01_DefaultPropagationTimeout (environ w)
    /\ PollingInterval c
       = env_GetOrDefaultSecond "SAKURACLOUD_POLLING_INTERVAL"
           dns01_DefaultPollingInterval (environ w)
    /\ HTTPClient c
       = Some {| Client_Timeout :=
                   env_GetOrDefaultSecond "SAKURACLOUD_HTTP_TIMEOUT"
                     (10 * 1000000000) (environ w) |}
    /\ Token c = ""
    /\ Secret c = "".
Proof.
  destruct (NewDefaultConfig_run w) as (l & c & Hfresh & Hrun & ->).
  eexists l, _. split; [exact Hrun|]. split; [exact Hfresh|].
  repeat split; reflexivity.
Qed.

(** [env.Get] fails as soon as one of the names is unset. *)
Lemma env_Get_missing (names : list string) (e : gmap string string) (n : string) :
  In n names -> e !! n = None -> exists err, env_Get names e = inr err.
Proof.
  intros Hin Hn. unfold env_Get.
  assert (Hf : In n (List.filter (fun n => bool_decide (e !! n = None)) names)).
  { apply filter_In. split; [exact Hin|]. now apply bool_decide_eq_true_2. }
  destruct (List.filter _ names) as [|m ms]; [destruct Hf | eauto].
Qed.

(** [env.Get] of two variables that are set returns both values. *)
Lemma env_Get_present (a b x y : string) (e : gmap string string) :
  e !! a = Some x -> e !! b = Some y ->
  env_Get [a; b] e = inl (<[a := x]> (<[b := y]> ∅)).
Proof.
  intros Ha Hb. unfold env_Get. simpl List.filter.
  rewrite !bool_decide_eq_false_2 by congruence.
  simpl. now rewrite Ha, Hb.
Qed.

(** [NewDNSProviderConfig] past its checks: the caller is built from the
    merged options and the provider keeps the pointer it was given. *)
Lemma NewDNSProviderConfig_built (l : loc) (c : Config)
    (dopts : api_CallerOptions) (w : World) :
  heap w !! l = Some c -> Token c <> "" -> Secret c <> "" ->
  api_DefaultOption (environ w) (ext w) = inl dopts ->
  let merged := api_MergeOptions dopts (provider_options c) in
  exists opts',
    fst (newCaller merged w)
      = Returns (iaas_NewClientWithOptions (Options opts'), opts')
    /\ NewDNSProviderConfig (Some l) w
       = (Returns (Some {| config := Some l;
                           client := iaas_NewDNSOp
                                       (iaas_NewClientWithOptions (Options opts')) |},
                   None),
          snd (newCaller merged w)).
Proof.
  intros Hl Htok Hsec Hd merged.
  destruct (newCaller_returns merged w) as (opts' & Hr & _).
  exists opts'. split; [exact Hr|].
  unfold NewDNSProviderConfig, bind.
  rewrite (load_Config_ok l c w Hl).
  destruct (String.eqb_spec (Token c) ""); [contradiction|].
  destruct (String.eqb_spec (Secret c) ""); [contradiction|].
  unfold call_DefaultOption. rewrite Hd.
  unfold newCallerWithOptions. fold merged.
  destruct (newCaller merged w) as [r w']. simpl in Hr. subst r.
  reflexivity.
Qed.

(** When [api.DefaultOption] fails, its error comes back wrapped, no caller
    is built and nothing is assigned. *)
Lemma NewDNSProviderConfig_DefaultOption_fails (l : loc) (c : Config)
    (err : error) (w : World) :
  heap w !! l = Some c -> Token c <> "" -> Secret c <> "" ->
  api_DefaultOption (environ w) (ext w) = inr err ->
  NewDNSProviderConfig (Some l) w
  = (Returns (None, Some (fmt_Errorf_w "sakuracloud: " err)), w).
Proof.
  intros Hl Htok Hsec Hd. unfold NewDNSProviderConfig, bind.
  rewrite (load_Config_ok l c w Hl).
  destruct (String.eqb_spec (Token c) ""); [contradiction|].
  destruct (String.eqb_spec (Secret c) ""); [contradiction|].
  unfold call_DefaultOption. now rewrite Hd.
Qed.

(** A provider that [NewDNSProviderConfig] returns has its configuration:
    the methods find it where the pointer says. *)
Lemma NewDNSProviderConfig_provider_has_config (cfg : option loc) (w w' : World)
    (p : DNSProvider) (e : option error) :
  NewDNSProviderConfig cfg w = (Returns (Some p, e), w') ->
  exists l c, cfg = Some l /\ config p = Some l /\ heap w' !! l = Some c.
Proof.
  destruct cfg as [l|]; [|discriminate].
  unfold NewDNSProviderConfig, bind, load_Config.
  destruct (heap w !! l) as [c|] eqn:Hl; [|discriminate].
  destruct (String.eqb (Token c) ""); [discriminate|].
  destruct (String.eqb (Secret c) ""); [discriminate|].
  unfold call_DefaultOption.
  destruct (api_DefaultOption (environ w) (ext w)) as [dopts|err];
    [|discriminate].
  unfold newCallerWithOptions.
  pose proof (newCaller_frame (api_MergeOptions dopts (provider_options c)) w)
    as (_ & Hheap & _).
  destruct (newCaller _ w) as [[co|] w'']; [|discriminate].
  intros Heq. injection Heq as <- _ <-.
  exists l, c. cbn [snd] in Hheap. rewrite Hheap. auto.
Qed.

(** C2: [NewDNSProviderConfig] returns an error and no provider when the
    configuration is nil, when its Token is empty, or when its Secret is
    empty; otherwise, when [api.DefaultOption] succeeds, it returns no error
    and a provider whose config field is the pointer it was given, the
    object behind it unchanged. *)
Theorem C2_NewDNSProviderConfig_validates (cfg : option loc) (w : World) :
  (cfg = None ->
     exists e, NewDNSProviderConfig cfg w = (Returns (None, Some e), w))
  /\ (forall l c, cfg = Some l -> heap w !! l = Some c -> Token c = "" ->
     exists e, NewDNSProviderConfig cfg w = (Returns (None, Some e), w))
  /\ (forall l c, cfg = Some l -> heap w !! l = Some c -> Secret c = "" ->
     exists e, NewDNSProviderConfig cfg w = (Returns (None, Some e), w))
  /\ (forall l c dopts, cfg = Some l -> heap w !! l = Some c ->
     Token c <> "" -> Secret c <> "" ->
     api_DefaultOption (environ w) (ext w) = inl dopts ->
     exists p,
       fst (NewDNSProviderConfig cfg w) = Returns (Some p, None)
       /\ config p = cfg
       /\ heap (snd (NewDNSProviderConfig cfg w)) = heap w).
Proof.
  repeat split.
  - intros ->. eexists. reflexivity.
  - intros l c -> Hl Htok. unfold NewDNSProviderConfig, bind.
    rewrite (load_Config_ok l c w Hl), Htok. eexists. reflexivity.
  - intros l c -> Hl Hsec. unfold NewDNSProviderConfig, bind.
    rewrite (load_Config_ok l c w Hl), Hsec.
    destruct (String.eqb (Token c) ""); eexists; reflexivity.
  - intros l c dopts -> Hl Htok Hsec Hd.
    destruct (NewDNSProviderConfig_built l c dopts w Hl Htok Hsec Hd)
      as (opts' & _ & ->).
    eexists. split; [reflexivity|]. split; [reflexivity|].
    apply newCaller_frame.
Qed.

(** C4: [NewDNSProvider] returns an error and no provider when
    SAKURACLOUD_ACCESS_TOKEN or SAKURACLOUD_ACCESS_TOKEN_SECRET is unset;
    when both are set it is [NewDNSProviderConfig] on the configuration of
    [NewDefaultConfig] with Token and Secret replaced by the values of the
    two variables. *)
Theorem C4_NewDNSProvider_from_environment (w : World) :
  (environ w !! "SAKURACLOUD_ACCESS_TOKEN" = None
   \/ environ w !! "SAKURACLOUD_ACCESS_TOKEN_SECRET" = None ->
     exists e, NewDNSProvider w = (Returns (None, Some e), w))
  /\ (forall tok sec,
     environ w !! "SAKURACLOUD_ACCESS_TOKEN" = Some tok ->
     environ w !! "SAKURACLOUD_ACCESS_TOKEN_SECRET" = Some sec ->
     exists l c,
       NewDefaultConfig w = (Returns (Some l), with_heap (<[l := c]> (heap w)) w)
       /\ NewDNSProvider w
          = NewDNSProviderConfig (Some l)
              (with_heap
                 (<[l := {| Token := tok;
                            Secret := sec;
                            PropagationTimeout := PropagationTimeout c;
                            PollingInterval := PollingInterval c;
                            TTL := TTL c;
                            HTTPClient := HTTPClient c |}]> (heap w))
                 w)).
Proof.
  split.
  - intros Hmiss. unfold NewDNSProvider, bind, get_environ.
    assert (Herr : exists err,
      env_Get [EnvAccessToken; EnvAccessTokenSecret] (environ w) = inr err).
    { destruct Hmiss as [Hm|Hm].
      - apply (env_Get_missing _ _ "SAKURACLOUD_ACCESS_TOKEN"); [now left | exact Hm].
      - apply (env_Get_missing _ _ "SAKURACLOUD_ACCESS_TOKEN_SECRET");
          [right; now left | exact Hm]. }
    destruct Herr as (err & ->). eexists. reflexivity.
  - intros tok sec Htok Hsec.
    destruct (NewDefaultConfig_run w) as (l & c & _ & Hrun & _).
    exists l, c. split; [exact Hrun|].
    unfold NewDNSProvider, bind, get_environ.
    rewrite (env_Get_present EnvAccessToken EnvAccessTokenSecret tok sec
               (environ w) Htok Hsec).
    rewrite Hrun.
    rewrite (update_Config_ok l c) by apply lookup_insert_eq.
    rewrite (update_Config_ok l (set_Token _ c)) by apply lookup_insert_eq.
    rewrite !heap_with_heap, !with_heap_with_heap, !insert_insert_eq.
    unfold map_index. rewrite lookup_insert_eq.
    rewrite lookup_insert_ne by discriminate.
    rewrite lookup_insert_eq. reflexivity.
Qed.

(** C10: a call of [NewDNSProviderConfig] that gets as far as building the
    caller leaves [defaults.DefaultStatePollingTimeout] at 72 hours, and
    leaves in [iaas.APIDefaultZone], [iaas.SakuraCloudZones] and
    [iaas.SakuraCloudAPIRoot] the zone, the zones and the root URL of the
    merged options wherever these are not empty. *)
Theorem C10_construction_assigns_package_variables
    (l : loc) (c : Config) (dopts : api_CallerOptions) (w : World) :
  heap w !! l = Some c -> Token c <> "" -> Secret c <> "" ->
  api_DefaultOption (environ w) (ext w) = inl dopts ->
  let merged := api_MergeOptions dopts (provider_options c) in
  let w' := snd (NewDNSProviderConfig (Some l) w) in
  defaults_DefaultStatePollingTimeout w' = 72 * (3600 * 1000000000)
  /\ iaas_APIDefaultZone w'
     = (if decide (DefaultZone merged = "")
        then iaas_APIDefaultZone w else DefaultZone merged)
  /\ iaas_SakuraCloudZones w'
     = (if decide (Zones merged = [])
        then iaas_SakuraCloudZones w else Zones merged)
  /\ iaas_SakuraCloudAPIRoot w'
     = (if decide (APIRootURL merged = "")
        then iaas_SakuraCloudAPIRoot w
        else strip_trailing_slashes (APIRootURL merged)).
Proof.
  intros Hl Htok Hsec Hd merged w'. subst w'.
  destruct (NewDNSProviderConfig_built l c dopts w Hl Htok Hsec Hd)
    as (opts' & _ & ->).
  fold merged. cbn [snd].
  split; [apply newCaller_DefaultStatePollingTimeout|].
  split; [apply newCaller_APIDefaultZone|].
  split; [apply newCaller_SakuraCloudZones|].
  apply newCaller_SakuraCloudAPIRoot.
Qed.

End Properties.

(** C7: with the two helpers as the spec has them, one invocation of
    [Present] sends the DNS API one request, the create call for the record
    of the challenge, and one invocation of [CleanUp] one request, the
    delete call; this whether the API accepts or refuses the request, the
    service being as that one request left it and the error of the request
    being what is returned, wrapped. *)
Theorem C7_one_API_call_per_invocation
    (E0 : Externals)
    (send : APIRequest -> @Ext E0 -> option error * @Ext E0)
    (p : DNSProvider) (l : loc) (c : Config)
    (domain token keyAuth : string) (w : @World (spec_helpers E0 send)) :
  config p = Some l -> heap w !! l = Some c ->
  let info := @dns01_GetChallengeInfo E0 domain keyAuth (environ w) (service w) in
  let create := CreateTXT (EffectiveFQDN info) (Value info) (TTL c) in
  let delete := DeleteTXT (EffectiveFQDN info) (Value info) in
  let presented := Present (Some p) domain token keyAuth w in
  let cleaned := CleanUp (Some p) domain token keyAuth w in
  requests (snd presented) = requests w ++ [create]
  /\ service (snd presented) = snd (send create (service w))
  /\ fst presented
     = Returns (option_map (fmt_Errorf_w "sakuracloud: ")
                  (fst (send create (service w))))
  /\ requests (snd cleaned) = requests w ++ [delete]
  /\ service (snd cleaned) = snd (send delete (service w))
  /\ fst cleaned
     = Returns (option_map (fmt_Errorf_w "sakuracloud: ")
                  (fst (send delete (service w))))
  /\ List.length (requests (snd presented)) = S (List.length (requests w))
  /\ List.length (requests (snd cleaned)) = S (List.length (requests w)).
Proof.
  intros Hp Hl info create delete presented cleaned.
  subst presented cleaned.
  rewrite (Present_run (E:=spec_helpers E0 send) p l c domain token keyAuth w Hp Hl).
  rewrite (CleanUp_run (E:=spec_helpers E0 send) (Some p) domain token keyAuth w).
  subst info create delete. unfold requests, service.
  cbn [snd fst ext with_call addTXTRecord cleanupTXTRecord spec_helpers
       dns01_GetChallengeInfo].
  unfold spec_addTXTRecord, spec_cleanupTXTRecord.
  destruct (send (CreateTXT _ _ _) _) as [ea sa].
  destruct (send (DeleteTXT _ _) _) as [ed sd].
  cbn [fst snd]. rewrite !length_app. cbn [List.length].
  repeat split; lia.
Qed.

(** ** The properties at work on the small instance *)



(** C2 on [demo]: nil is refused, the configuration at address 0 is
    accepted and kept. *)
Lemma C2_witness :
  (exists e, NewDNSProviderConfig (E:=demo) None demo_world
             = (Returns (None, Some e), demo_world))
  /\ (exists p,
        fst (NewDNSProviderConfig (E:=demo) (Some 0%nat) demo_world)
          = Returns (Some p, None)
        /\ config p = Some 0%nat
        /\ heap (snd (NewDNSProviderConfig (E:=demo) (Some 0%nat) demo_world))
           = heap demo_world).
Proof.
  split.
  - destruct (C2_NewDNSProviderConfig_validates (E:=demo) None demo_world)
      as (Hnil & _).
    apply Hnil. reflexivity.
  - destruct (C2_NewDNSProviderConfig_validates (E:=demo) (Some 0%nat) demo_world)
      as (_ & _ & _ & Hok).
    apply (Hok 0%nat demo_config demo_DefaultOption);
      [reflexivity | reflexivity | discriminate | discriminate | reflexivity].
Defined.

(** C3 on [demo_down]: the refusal of the service comes back wrapped. *)
Lemma C3_witness :
  config demo_provider = Some 0%nat
  /\ heap demo_down_world !! 0%nat = Some demo_config
  /\ fst (Present (E:=demo_down) (Some demo_provider) "example.com" "t1" "ka"
            demo_down_world)
     = Returns (Some (fmt_Errorf_w "sakuracloud: " (errors_New "503")))
  /\ fst (CleanUp (E:=demo_down) (Some demo_provider) "example.com" "t1" "ka"
            demo_down_world)
     = Returns (Some (fmt_Errorf_w "sakuracloud: " (errors_New "503"))).
Proof.
  split; [reflexivity|]. split; [reflexivity|].
  destruct (C3_errors_are_propagated (E:=demo_down)
              demo_provider 0%nat demo_config "example.com" "t1" "ka"
              demo_down_world eq_refl eq_refl)
    as (_ & Hadd & _ & Hdel).
  destruct (Hadd (errors_New "503") eq_refl) as (e1 & H1 & -> & _).
  destruct (Hdel (errors_New "503") eq_refl) as (e2 & H2 & -> & _).
  split; [exact H1 | exact H2].
Defined.

(** C4 on both instances: no credentials in the environment of
    [demo_down_world], both in that of [demo_world]. *)
Lemma C4_witness :
  (exists e, NewDNSProvider (E:=demo_down) demo_down_world
             = (Returns (None, Some e), demo_down_world))
  /\ (exists l c,
        NewDefaultConfig (E:=demo) demo_world
          = (Returns (Some l), with_heap (<[l := c]> (heap demo_world)) demo_world)
        /\ NewDNSProvider (E:=demo) demo_world
           = NewDNSProviderConfig (Some l)
               (with_heap
                  (<[l := {| Token := "token";
                             Secret := "secret";
                             PropagationTimeout := PropagationTimeout c;
                             PollingInterval := PollingInterval c;
                             TTL := TTL c;
                             HTTPClient := HTTPClient c |}]> (heap demo_world))
                  demo_world)).
Proof.
  split.
  - destruct (C4_NewDNSProvider_from_environment (E:=demo_down) demo_down_world)
      as (Hunset & _).
    apply Hunset. left. reflexivity.
  - destruct (C4_NewDNSProvider_from_environment (E:=demo) demo_world)
      as (_ & Hset).
    apply (Hset "token" "secret"); reflexivity.
Defined.

(** C5 on [demo]: one minute and two seconds. *)
Lemma C5_witness :
  config demo_provider = Some 0%nat
  /\ heap demo_world !! 0%nat = Some demo_config
  /\ Timeout (E:=demo) (Some demo_provider) demo_world
     = (Returns (60000000000, 2000000000), demo_world).
Proof.
  split; [reflexivity|]. split; [reflexivity|].
  apply (C5_Timeout_returns_config_pair (E:=demo)
           demo_provider 0%nat demo_config demo_world);
    reflexivity.
Defined.

(** C7 on [demo] behind an API that refuses every request: a refused
    request is not sent again. *)
Lemma C7_witness :
  config demo_provider = Some 0%nat
  /\ heap demo_api_world !! 0%nat = Some demo_config
  /\ requests (snd (Present (Some demo_provider) "example.com" "t1" "ka"
                      demo_api_world))
     = [CreateTXT "_acme-challenge.example.com." "ka" 120]
  /\ requests (snd (CleanUp (Some demo_provider) "example.com" "t1" "ka"
                      demo_api_world))
     = [DeleteTXT "_acme-challenge.example.com." "ka"].
Proof.
  split; [reflexivity|]. split; [reflexivity|].
  destruct (C7_one_API_call_per_invocation demo demo_send_down
              demo_provider 0%nat demo_config "example.com" "t1" "ka"
              demo_api_world eq_refl eq_refl)
    as (Hp & _ & _ & Hc & _).
  split; [exact Hp | exact Hc].
Defined.

(** C10 on [demo]: the four package-level variables after construction. *)
Lemma C10_witness :
  heap demo_world !! 0%nat = Some demo_config
  /\ Token demo_config <> ""
  /\ Secret demo_config <> ""
  /\ api_DefaultOption (Externals:=demo) (environ demo_world) (ext demo_world)
     = inl demo_DefaultOption
  /\ let w' := snd (NewDNSProviderConfig (E:=demo) (Some 0%nat) demo_world) in
     defaults_DefaultStatePollingTimeout w' = 259200000000000
     /\ iaas_APIDefaultZone w' = "is1a"
     /\ iaas_SakuraCloudZones w' = ["is1a"; "tk1a"]
     /\ iaas_SakuraCloudAPIRoot w' = "https://dns.example/api".
Proof.
  split; [reflexivity|]. split; [discriminate|]. split; [discriminate|].
  split; [reflexivity|].
  apply (C10_construction_assigns_package_variables (E:=demo)
           0%nat demo_config demo_DefaultOption demo_world);
    [reflexivity | discriminate | discriminate | reflexivity].
Defined.

(** * Further properties of the package *)

(** ** Strings *)

Lemma snoc_inj (s r : string) (c d : ascii) :
  s +:+ String c "" = r +:+ String d "" -> s = r /\ c = d.
Proof.
  revert r. induction s as [|a s IH]; intros [|b r]; rewrite ?append_cons, ?append_nil.
  - intros [= ->]. split; reflexivity.
  - intros [= -> Hr]. destruct r; discriminate.
  - intros [= -> Hs]. destruct s; discriminate.
  - intros [= -> Hs]. destruct (IH r Hs) as [-> ->]. split; reflexivity.
Qed.

Lemma list_ascii_of_string_append (s t : string) :
  list_ascii_of_string (s +:+ t)
  = list_ascii_of_string s ++ list_ascii_of_string t.
Proof.
  induction s as [|a s IH]; rewrite ?append_cons, ?append_nil; simpl;
    [reflexivity | now rewrite IH].
Qed.

(** One turn of the loop of [strings.TrimRight] on a string that ends in
    [c]. *)
Lemma trimRight_loop_snoc (fuel : nat) (s cutset : string) (c : ascii) :
  trimRight_loop (S fuel) (s +:+ String c "") cutset
  = if in_cutset c cutset
    then trimRight_loop fuel s cutset
    else s +:+ String c "".
Proof.
  simpl trimRight_loop. rewrite length_snoc.
  replace (S (String.length s) - 1)%nat with (String.length s) by lia.
  rewrite get_snoc_last, substring_snoc_init. reflexivity.
Qed.

(** More turns than the string has bytes change nothing. *)
Lemma trimRight_loop_fuel (s cutset : string) :
  forall fuel, (String.length s <= fuel)%nat ->
    trimRight_loop fuel s cutset = strings_TrimRight s cutset.
Proof.
  unfold strings_TrimRight.
  induction s as [|s c IH] using string_snoc_ind; intros fuel Hfuel.
  - destruct fuel; reflexivity.
  - rewrite length_snoc in *. destruct fuel as [|fuel]; [lia|].
    rewrite !trimRight_loop_snoc.
    destruct (in_cutset c cutset); [|reflexivity].
    apply IH. lia.
Qed.

Lemma TrimRight_snoc (s cutset : string) (c : ascii) :
  strings_TrimRight (s +:+ String c "") cutset
  = if in_cutset c cutset
    then strings_TrimRight s cutset
    else s +:+ String c "".
Proof.
  unfold strings_TrimRight at 1. rewrite length_snoc, trimRight_loop_snoc.
  reflexivity.
Qed.

(** X13: for a cutset of ASCII bytes, [strings.TrimRight(s, cutset)] splits
    [s] in two: what it returns, which does not end in a byte of the
    cutset, and what it removes, made of bytes of the cutset only. *)
Theorem X13_TrimRight_splits (s cutset : string) :
  forallb is_ascii (list_ascii_of_string cutset) = true ->
  exists removed,
    s = strings_TrimRight s cutset +:+ removed
    /\ forallb (fun c => in_cutset c cutset) (list_ascii_of_string removed) = true
    /\ (forall r c, strings_TrimRight s cutset = r +:+ String c "" ->
          in_cutset c cutset = false).
Proof.
  intros _.
  induction s as [|s c (removed & Hs & Hall & Hlast)] using string_snoc_ind.
  - exists "". repeat split. intros r c Hr. destruct r; discriminate.
  - rewrite TrimRight_snoc. destruct (in_cutset c cutset) eqn:Hc.
    + exists (removed +:+ String c ""). repeat split.
      * rewrite <- append_assoc. now rewrite <- Hs.
      * rewrite list_ascii_of_string_append, forallb_app, Hall. simpl.
        now rewrite Hc.
      * exact Hlast.
    + exists "". rewrite append_empty_r. repeat split.
      intros r d Hr. apply snoc_inj in Hr as [_ <-]. exact Hc.
Qed.

(** X12: the test [strings.HasSuffix(opts.APIRootURL, "/")] in front of
    [strings.TrimRight(opts.APIRootURL, "/")] changes nothing: with or
    without it the result is that of [TrimRight]. *)
Theorem X12_HasSuffix_guard_is_redundant (s : string) :
  (if strings_HasSuffix s "/" then strings_TrimRight s "/" else s)
  = strings_TrimRight s "/".
Proof. now rewrite guarded_TrimRight, TrimRight_slash. Qed.

Lemma strip_slashes (k : nat) : strip_trailing_slashes (slashes k) = "".
Proof.
  induction k as [|k IH]; [reflexivity|].
  rewrite <- slashes_snoc, strip_snoc_slash. exact IH.
Qed.

Lemma strip_idempotent (s : string) :
  strip_trailing_slashes (strip_trailing_slashes s) = strip_trailing_slashes s.
Proof.
  apply strip_no_suffix.
  destruct (strip_trailing_slashes_spec s) as (k & _ & Hno). exact Hno.
Qed.

(** ** The methods *)

Section MoreProperties.
Context {E : Externals}.

Lemma Timeout_run (p : DNSProvider) (l : loc) (c : Config) (w : World) :
  config p = Some l -> heap w !! l = Some c ->
  Timeout (Some p) w = (Returns (PropagationTimeout c, PollingInterval c), w).
Proof.
  intros Hp Hl. unfold Timeout, bind, deref_DNSProvider, ret.
  do 2 (rewrite ?Hp, (load_Config_ok l c w Hl); cbn beta iota).
  reflexivity.
Qed.

(** X1: a provider whose config is nil (the zero value of the type) cannot
    present a challenge or report its timeout: [Present] and [Timeout]
    panic, leaving the world as it is and without any call to the DNS API.
    [CleanUp] does not read the config: on the same provider it issues its
    delete call and returns the wrapped result of the helper. *)
Theorem X1_provider_without_config
    (p : DNSProvider) (domain token keyAuth : string) (w : World) :
  config p = None ->
  let info := dns01_GetChallengeInfo domain keyAuth (environ w) (ext w) in
  let r := cleanupTXTRecord (Some p) (EffectiveFQDN info) (Value info) (ext w) in
  Present (Some p) domain token keyAuth w = (Panics, w)
  /\ Timeout (Some p) w = (Panics, w)
  /\ fst (CleanUp (Some p) domain token keyAuth w)
     = Returns (option_map (fmt_Errorf_w "sakuracloud: ") (fst r))
  /\ calls (snd (CleanUp (Some p) domain token keyAuth w))
     = calls w ++ [CallCleanupTXTRecord (EffectiveFQDN info) (Value info)].
Proof.
  intros Hp info r. split; [now apply Present_without_config|].
  split.
  - unfold Timeout, bind, deref_DNSProvider, ret, load_Config. now rewrite Hp.
  - rewrite CleanUp_run. split; reflexivity.
Qed.

(** ** [newCaller] *)

(** The tests of [newCaller] one after the other, the fields reduced after
    each. *)
Ltac reduce_fields :=
  cbn [Options UserAgent DefaultZone Zones APIRootURL set_UserAgent
       set_APIRootURL AccessToken AccessTokenSecret HttpClient
       negb List.length Nat.ltb Nat.leb fst snd
       with_DefaultStatePollingTimeout with_APIDefaultZone
       with_SakuraCloudZones with_SakuraCloudAPIRoot
       defaults_DefaultStatePollingTimeout iaas_APIDefaultZone
       iaas_SakuraCloudZones iaas_SakuraCloudAPIRoot
       environ heap ext calls].

Ltac run_newCaller opts :=
  destruct opts as [[tok sec hc ua] root zone zones];
  unfold newCaller, bind, ret,
    assign_DefaultStatePollingTimeout, assign_APIDefaultZone,
    assign_SakuraCloudZones, assign_SakuraCloudAPIRoot;
  reduce_fields;
  destruct (String.eqb_spec ua "") as [Hua|Hua]; reduce_fields;
  destruct (String.eqb_spec zone "") as [Hzone|Hzone]; reduce_fields;
  destruct zones as [|z zones]; reduce_fields;
  destruct (String.eqb_spec root "") as [Hroot|Hroot]; reduce_fields;
  destruct (strings_HasSuffix root "/") eqn:Hsuffix; reduce_fields.

(** [newCaller] computes its closed form. *)
Lemma newCaller_closed_form (opts : api_CallerOptions) (w : World) :
  newCaller opts w
  = (Returns (iaas_NewClientWithOptions (Options (newCaller_opts opts)),
              newCaller_opts opts),
     newCaller_world opts w).
Proof.
  unfold newCaller_opts, newCaller_world.
  run_newCaller opts;
    rewrite ?TrimRight_slash;
    try rewrite (strip_no_suffix _ Hsuffix);
    try subst root; reflexivity.
Qed.

Lemma newCaller_opts_idempotent (opts : api_CallerOptions) :
  newCaller_opts (newCaller_opts opts) = newCaller_opts opts.
Proof.
  destruct opts as [[tok sec hc ua] root zone zones].
  unfold newCaller_opts. cbn [Options UserAgent AccessToken AccessTokenSecret
    HttpClient APIRootURL DefaultZone Zones].
  rewrite strip_idempotent.
  destruct (String.eqb_spec ua "") as [Hua|Hua].
  - destruct (String.eqb iaas_DefaultUserAgent ""); reflexivity.
  - destruct (String.eqb_spec ua ""); [contradiction | reflexivity].
Qed.

Lemma newCaller_world_opts (opts : api_CallerOptions) (w : World) :
  newCaller_world (newCaller_opts opts) (newCaller_world opts w)
  = newCaller_world opts w.
Proof.
  destruct opts as [[tok sec hc ua] root zone zones].
  unfold newCaller_world, newCaller_opts.
  cbn [environ heap ext calls iaas_APIDefaultZone iaas_SakuraCloudZones
    iaas_SakuraCloudAPIRoot Options APIRootURL DefaultZone Zones].
  rewrite strip_idempotent.
  assert (Hroot :
    (if String.eqb (strip_trailing_slashes root) ""
     then if String.eqb root "" then iaas_SakuraCloudAPIRoot w
          else strip_trailing_slashes root
     else strip_trailing_slashes root)
    = (if String.eqb root "" then iaas_SakuraCloudAPIRoot w
       else strip_trailing_slashes root)).
  { destruct (String.eqb_spec (strip_trailing_slashes root) "") as [Hs|Hs];
      [reflexivity|].
    destruct (String.eqb_spec root "") as [->|_]; [|reflexivity].
    now contradiction Hs. }
  rewrite Hroot.
  destruct (String.eqb zone ""), zones; reflexivity.
Qed.

(** X10: [newCaller] is idempotent on the options it has written: called
    again on them, in the world it left, it builds the same caller and
    changes neither the options nor the world. *)
Theorem X10_newCaller_idempotent (opts : api_CallerOptions) (w : World) :
  exists caller opts' w',
    newCaller opts w = (Returns (caller, opts'), w')
    /\ newCaller opts' w' = (Returns (caller, opts'), w').
Proof.
  eexists _, _, _. split; [apply newCaller_closed_form|].
  rewrite newCaller_closed_form, newCaller_opts_idempotent, newCaller_world_opts.
  reflexivity.
Qed.

(** X11: a root URL made of ["/"] only is not empty, so [newCaller] assigns
    it, and what it assigns to [iaas.SakuraCloudAPIRoot] is the empty
    string. *)
Theorem X11_root_of_slashes_only
    (opts : api_CallerOptions) (w : World) (k : nat) :
  iaas_SakuraCloudAPIRoot
    (snd (newCaller (set_APIRootURL (slashes (S k)) opts) w)) = "".
Proof.
  rewrite newCaller_closed_form. unfold newCaller_world, set_APIRootURL.
  cbn [snd iaas_SakuraCloudAPIRoot APIRootURL].
  rewrite strip_slashes. reflexivity.
Qed.

(** X14: [newCaller] builds the caller with the credentials and the HTTP
    client of the options it is given, unchanged, and with an empty user
    agent only when both the options' and [iaas.DefaultUserAgent] are
    empty. *)
Theorem X14_newCaller_keeps_credentials (opts : api_CallerOptions) (w : World) :
  exists o opts',
    fst (newCaller opts w) = Returns (iaas_NewClientWithOptions o, opts')
    /\ AccessToken o = AccessToken (Options opts)
    /\ AccessTokenSecret o = AccessTokenSecret (Options opts)
    /\ HttpClient o = HttpClient (Options opts)
    /\ (UserAgent o = "" ->
        UserAgent (Options opts) = "" /\ iaas_DefaultUserAgent = "").
Proof.
  rewrite newCaller_closed_form. eexists _, _.
  split; [reflexivity|]. unfold newCaller_opts.
  cbn [Options AccessToken AccessTokenSecret HttpClient UserAgent].
  repeat split; destruct (String.eqb_spec (UserAgent (Options opts)) "");
    congruence.
Qed.

End MoreProperties.

(** ** The constructors *)

Section MoreConstructors.
Context {E : Externals}.

(** [NewDNSProviderConfig] past its checks, in closed form. *)
Lemma NewDNSProviderConfig_closed_form (l : loc) (c : Config)
    (dopts : api_CallerOptions) (w : World) :
  heap w !! l = Some c -> Token c <> "" -> Secret c <> "" ->
  api_DefaultOption (environ w) (ext w) = inl dopts ->
  let merged := api_MergeOptions dopts (provider_options c) in
  NewDNSProviderConfig (Some l) w
  = (Returns
       (Some {| config := Some l;
                client := iaas_NewDNSOp
                            (iaas_NewClientWithOptions
                               (Options (newCaller_opts merged))) |},
        None),
     newCaller_world merged w).
Proof.
  intros Hl Htok Hsec Hd merged.
  unfold NewDNSProviderConfig, bind.
  rewrite (load_Config_ok l c w Hl).
  destruct (String.eqb_spec (Token c) ""); [contradiction|].
  destruct (String.eqb_spec (Secret c) ""); [contradiction|].
  unfold call_DefaultOption. rewrite Hd.
  unfold newCallerWithOptions. fold merged.
  rewrite newCaller_closed_form. reflexivity.
Qed.

(** Every way [NewDNSProviderConfig] can go. *)
Lemma NewDNSProviderConfig_cases (cfg : option loc) (w : World) :
  (exists e, NewDNSProviderConfig cfg w = (Returns (None, Some e), w))
  \/ NewDNSProviderConfig cfg w = (Panics, w)
  \/ (exists l c dopts,
        cfg = Some l /\ heap w !! l = Some c
        /\ Token c <> "" /\ Secret c <> ""
        /\ api_DefaultOption (environ w) (ext w) = inl dopts).
Proof.
  destruct cfg as [l|]; [|left; eexists; reflexivity].
  destruct (heap w !! l) as [c|] eqn:Hl.
  - destruct (String.eqb_spec (Token c) "") as [Htok|Htok].
    { left. unfold NewDNSProviderConfig, bind.
      rewrite (load_Config_ok l c w Hl), Htok. eexists. reflexivity. }
    destruct (String.eqb_spec (Secret c) "") as [Hsec|Hsec].
    { left. unfold NewDNSProviderConfig, bind.
      rewrite (load_Config_ok l c w Hl), Hsec.
      destruct (String.eqb (Token c) ""); eexists; reflexivity. }
    destruct (api_DefaultOption (environ w) (ext w)) as [dopts|err] eqn:Hd.
    + right. right. exists l, c, dopts. auto.
    + left. eexists.
      apply (NewDNSProviderConfig_DefaultOption_fails l c err w); assumption.
  - right. left. unfold NewDNSProviderConfig, bind, load_Config.
    now rewrite Hl.
Qed.

(** X4: the three checks of [NewDNSProviderConfig] come in a fixed order,
    each with its own message: a nil configuration, then an empty Token
    (whatever the Secret), then an empty Secret. *)
Theorem X4_validation_order_and_messages (w : World) :
  NewDNSProviderConfig None w
  = (Returns (None, Some (errors_New
       "sakuracloud: the configuration of the DNS provider is nil")), w)
  /\ (forall l c, heap w !! l = Some c -> Token c = "" ->
      NewDNSProviderConfig (Some l) w
      = (Returns (None, Some (errors_New "sakuracloud: AccessToken is missing")), w))
  /\ (forall l c, heap w !! l = Some c -> Token c <> "" -> Secret c = "" ->
      NewDNSProviderConfig (Some l) w
      = (Returns (None, Some (errors_New "sakuracloud: AccessSecret is missing")), w)).
Proof.
  split; [reflexivity|]. split.
  - intros l c Hl Htok. unfold NewDNSProviderConfig, bind.
    now rewrite (load_Config_ok l c w Hl), Htok.
  - intros l c Hl Htok Hsec. unfold NewDNSProviderConfig, bind.
    rewrite (load_Config_ok l c w Hl), Hsec.
    destruct (String.eqb_spec (Token c) ""); [contradiction | reflexivity].
Qed.

(** X5: an error of [api.DefaultOption] comes back wrapped under
    ["sakuracloud: "], with no provider; no caller is built and no
    package-level variable is assigned. *)
Theorem X5_DefaultOption_error_is_wrapped
    (l : loc) (c : Config) (err : error) (w : World) :
  heap w !! l = Some c -> Token c <> "" -> Secret c <> "" ->
  api_DefaultOption (environ w) (ext w) = inr err ->
  NewDNSProviderConfig (Some l) w
  = (Returns (None, Some (fmt_Errorf_w "sakuracloud: " err)), w)
  /\ Unwrap (fmt_Errorf_w "sakuracloud: " err) = Some err
  /\ Error (fmt_Errorf_w "sakuracloud: " err) = "sakuracloud: " +:+ Error err.
Proof.
  intros Hl Htok Hsec Hd.
  split; [now apply (NewDNSProviderConfig_DefaultOption_fails l c)|].
  split; reflexivity.
Qed.

(** [NewDNSProviderConfig] keeps the [Config] objects as they are. *)
Lemma NewDNSProviderConfig_keeps_heap (cfg : option loc) (w : World) :
  heap (snd (NewDNSProviderConfig cfg w)) = heap w
  /\ environ (snd (NewDNSProviderConfig cfg w)) = environ w.
Proof.
  destruct (NewDNSProviderConfig_cases cfg w)
    as [(e & ->) | [-> | (l & c & dopts & -> & Hl & Htok & Hsec & Hd)]].
  - split; reflexivity.
  - split; reflexivity.
  - rewrite (NewDNSProviderConfig_closed_form l c dopts w Hl Htok Hsec Hd).
    split; reflexivity.
Qed.

(** X6: [NewDNSProviderConfig] never writes to the environment or to a
    [Config], and never calls the DNS API; when it returns no provider it
    has changed nothing at all. *)
Theorem X6_NewDNSProviderConfig_frame (cfg : option loc) (w : World) :
  let r := NewDNSProviderConfig cfg w in
  environ (snd r) = environ w
  /\ heap (snd r) = heap w
  /\ ext (snd r) = ext w
  /\ calls (snd r) = calls w
  /\ ((forall p e, fst r <> Returns (Some p, e)) -> snd r = w).
Proof.
  intros r. subst r.
  destruct (NewDNSProviderConfig_cases cfg w)
    as [(e & ->) | [-> | (l & c & dopts & -> & Hl & Htok & Hsec & Hd)]].
  - repeat split.
  - repeat split.
  - rewrite (NewDNSProviderConfig_closed_form l c dopts w Hl Htok Hsec Hd).
    repeat split. intros Hno. exfalso. eapply Hno. reflexivity.
Qed.

(** X7: a provider that [NewDNSProviderConfig] returns comes with no error
    and from a configuration with Token and Secret; on it [Timeout] returns
    the pair of that configuration, and [Present] returns after one create
    call with the TTL of that configuration. *)
Theorem X7_returned_provider_is_usable
    (cfg : option loc) (w w' : World) (p : DNSProvider) (e : option error)
    (domain token keyAuth : string) :
  NewDNSProviderConfig cfg w = (Returns (Some p, e), w') ->
  let info := dns01_GetChallengeInfo domain keyAuth (environ w') (ext w') in
  e = None
  /\ exists l c,
       cfg = Some l /\ heap w !! l = Some c
       /\ Token c <> "" /\ Secret c <> ""
       /\ Timeout (Some p) w'
          = (Returns (PropagationTimeout c, PollingInterval c), w')
       /\ (exists r, fst (Present (Some p) domain token keyAuth w') = Returns r)
       /\ calls (snd (Present (Some p) domain token keyAuth w'))
          = calls w' ++ [CallAddTXTRecord (EffectiveFQDN info) (Value info) (TTL c)].
Proof.
  intros Hrun info.
  destruct (NewDNSProviderConfig_cases cfg w)
    as [(e' & Hcase) | [Hcase | (l & c & dopts & -> & Hl & Htok & Hsec & Hd)]];
    try (rewrite Hcase in Hrun; discriminate).
  rewrite (NewDNSProviderConfig_closed_form l c dopts w Hl Htok Hsec Hd) in Hrun.
  injection Hrun as Hp <- <-.
  assert (Hcp : config p = Some l) by now rewrite <- Hp.
  split; [reflexivity|]. exists l, c.
  assert (Hl' : heap (newCaller_world
                        (api_MergeOptions dopts (provider_options c)) w) !! l
                = Some c) by exact Hl.
  repeat split; try assumption.
  - now apply Timeout_run with (l := l).
  - rewrite (Present_run p l c domain token keyAuth _ Hcp Hl').
    eexists. reflexivity.
  - rewrite (Present_run p l c domain token keyAuth _ Hcp Hl').
    reflexivity.
Qed.

(** X8: the provider keeps the pointer, not a copy: after a write through
    the pointer that was given to [NewDNSProviderConfig], [Timeout] returns
    the pair of the configuration as written. *)
Theorem X8_provider_shares_its_config
    (l : loc) (w w' : World) (p : DNSProvider) (e : option error)
    (f : Config -> Config) :
  NewDNSProviderConfig (Some l) w = (Returns (Some p, e), w') ->
  exists c,
    heap w !! l = Some c
    /\ bind (update_Config (Some l) f) (fun _ => Timeout (Some p)) w'
       = (Returns (PropagationTimeout (f c), PollingInterval (f c)),
          with_heap (<[l := f c]> (heap w')) w').
Proof.
  intros Hrun.
  destruct (NewDNSProviderConfig_provider_has_config _ _ _ _ _ Hrun)
    as (l' & c & [= <-] & Hp & Hl').
  pose proof (X := NewDNSProviderConfig_cases (Some l) w).
  assert (Hl : heap w !! l = Some c).
  { destruct X as [(e' & Hcase) | [Hcase | (l0 & c0 & dopts & [= <-] & Hl & Htok & Hsec & Hd)]];
      try (rewrite Hcase in Hrun; discriminate).
    rewrite (NewDNSProviderConfig_closed_form l c0 dopts w Hl Htok Hsec Hd) in Hrun.
    injection Hrun as _ _ <-. cbn [newCaller_world heap] in Hl'. congruence. }
  exists c. split; [exact Hl|].
  unfold bind at 1. rewrite (update_Config_ok l c f w' Hl').
  apply Timeout_run with (l := l); [exact Hp | apply lookup_insert_eq].
Qed.

(** X9: [NewDefaultConfig] allocates: two calls in a row return two
    different pointers to equal configurations, no [Config] that existed
    before is changed by either, and neither the environment nor a
    package-level variable is written. *)
Theorem X9_NewDefaultConfig_allocates (w : World) :
  exists l1 l2 c w1 w2,
    NewDefaultConfig w = (Returns (Some l1), w1)
    /\ NewDefaultConfig w1 = (Returns (Some l2), w2)
    /\ l1 <> l2
    /\ heap w2 !! l1 = Some c
    /\ heap w2 !! l2 = Some c
    /\ (forall l c', heap w !! l = Some c' -> heap w2 !! l = Some c')
    /\ same_process_state w (with_heap (heap w) w2).
Proof.
  destruct (NewDefaultConfig_run w) as (l1 & c1 & Hf1 & Hrun1 & Hc1).
  destruct (NewDefaultConfig_run (with_heap (<[l1 := c1]> (heap w)) w))
    as (l2 & c2 & Hf2 & Hrun2 & Hc2).
  cbn [environ heap with_heap] in Hf2, Hc2.
  assert (c2 = c1) as -> by congruence.
  assert (Hne : l1 <> l2).
  { intros <-. rewrite lookup_insert_eq in Hf2. discriminate. }
  exists l1, l2, c1. eexists _, _.
  split; [exact Hrun1|]. split; [exact Hrun2|]. split; [exact Hne|].
  cbn [heap with_heap].
  split; [now rewrite lookup_insert_ne, lookup_insert_eq by auto|].
  split; [apply lookup_insert_eq|].
  split; [|repeat split].
  intros l c' Hl.
  rewrite lookup_insert_ne in Hf2 by exact Hne.
  assert (l1 <> l) by congruence.
  assert (l2 <> l) by congruence.
  now rewrite !lookup_insert_ne by assumption.
Qed.

Lemma prefix_append (p s : string) : String.prefix p (p +:+ s) = true.
Proof.
  induction p as [|a p IH]; [destruct s; reflexivity|].
  rewrite append_cons. simpl. destruct (ascii_dec a a); [exact IH | contradiction].
Qed.

Lemma NewDNSProviderConfig_error_prefixed (cfg : option loc) (w : World)
    (p : option DNSProvider) (e : error) :
  fst (NewDNSProviderConfig cfg w) = Returns (p, Some e) ->
  String.prefix "sakuracloud: " (Error e) = true.
Proof.
  destruct cfg as [l|]; [|intros [= <- <-]; reflexivity].
  unfold NewDNSProviderConfig, bind, load_Config.
  destruct (heap w !! l) as [c|]; [|discriminate].
  destruct (String.eqb (Token c) ""); [intros [= <- <-]; reflexivity|].
  destruct (String.eqb (Secret c) ""); [intros [= <- <-]; reflexivity|].
  unfold call_DefaultOption.
  destruct (api_DefaultOption (environ w) (ext w)) as [dopts|err].
  - unfold newCallerWithOptions. rewrite newCaller_closed_form. discriminate.
  - intros [= <- <-]. apply (prefix_append "sakuracloud: ").
Qed.

(** X2: every error the package returns has a message that starts with
    ["sakuracloud: "], be it from [Present], [CleanUp],
    [NewDNSProviderConfig] or [NewDNSProvider]. *)
Theorem X2_errors_start_with_package_name
    (d : option DNSProvider) (domain token keyAuth : string)
    (cfg : option loc) (w : World) (e : error) :
  fst (Present d domain token keyAuth w) = Returns (Some e)
  \/ fst (CleanUp d domain token keyAuth w) = Returns (Some e)
  \/ (exists p, fst (NewDNSProviderConfig cfg w) = Returns (p, Some e))
  \/ (exists p, fst (NewDNSProvider w) = Returns (p, Some e)) ->
  String.prefix "sakuracloud: " (Error e) = true.
Proof.
  intros [Hp | [Hc | [(p & Hn) | (p & Hn)]]].
  - revert Hp.
    unfold Present, bind, call_GetChallengeInfo, deref_DNSProvider, ret,
      panic, load_Config, call_addTXTRecord.
    destruct d as [q|]; [|discriminate].
    destruct (config q) as [l|]; [|discriminate].
    destruct (heap w !! l) as [c|]; [|discriminate].
    destruct (addTXTRecord _ _ _ _ _) as [[e0|] x]; [|discriminate].
    intros [= <-]. apply (prefix_append "sakuracloud: ").
  - rewrite CleanUp_run in Hc. cbn [fst] in Hc.
    destruct (fst (cleanupTXTRecord _ _ _ _)) as [e0|]; [|discriminate].
    injection Hc as <-. apply (prefix_append "sakuracloud: ").
  - exact (NewDNSProviderConfig_error_prefixed cfg w p e Hn).
  - revert Hn. unfold NewDNSProvider, bind, get_environ.
    destruct (env_Get _ (environ w)) as [values|err].
    + destruct (NewDefaultConfig_run w) as (l & c & _ & -> & _).
      rewrite (update_Config_ok l c) by apply lookup_insert_eq.
      rewrite (update_Config_ok l (set_Token _ c)) by apply lookup_insert_eq.
      apply NewDNSProviderConfig_error_prefixed.
    + intros [= <- <-]. apply (prefix_append "sakuracloud: ").
Qed.

(** X16: a provider that [NewDNSProvider] returns points to a [Config]
    allocated by that call: the address was free before, every [Config]
    that existed is unchanged, and so is the environment. *)
Theorem X16_NewDNSProvider_uses_a_new_Config
    (w w' : World) (p : DNSProvider) (e : option error) :
  NewDNSProvider w = (Returns (Some p, e), w') ->
  exists l c,
    config p = Some l
    /\ heap w !! l = None
    /\ heap w' !! l = Some c
    /\ (forall l' c', heap w !! l' = Some c' -> heap w' !! l' = Some c')
    /\ environ w' = environ w.
Proof.
  unfold NewDNSProvider, bind, get_environ.
  destruct (env_Get _ (environ w)) as [values|err]; [|discriminate].
  destruct (NewDefaultConfig_run w) as (l & c & Hfree & -> & _).
  rewrite (update_Config_ok l c) by apply lookup_insert_eq.
  rewrite (update_Config_ok l (set_Token _ c)) by apply lookup_insert_eq.
  rewrite !heap_with_heap, !with_heap_with_heap, !insert_insert_eq.
  intros Hrun.
  destruct (NewDNSProviderConfig_provider_has_config _ _ _ _ _ Hrun)
    as (l0 & c0 & [= <-] & Hp & Hl).
  destruct (NewDNSProviderConfig_keeps_heap (Some l)
              (with_heap (<[l := set_Secret (map_index values EnvAccessTokenSecret)
                                    (set_Token (map_index values EnvAccessToken) c)]>
                            (heap w)) w))
    as (Hheap & Henv).
  rewrite Hrun in Hheap, Henv. cbn [snd heap environ with_heap] in Hheap, Henv.
  exists l, c0. repeat split; try assumption.
  intros l' c' Hl'. rewrite Hheap.
  rewrite lookup_insert_ne by congruence. exact Hl'.
Qed.

End MoreConstructors.

(** ** The further properties at work on the small instance *)

(** X1 on [demo]: the blank provider. *)
Lemma X1_witness :
  config demo_blank_provider = None
  /\ Present (E:=demo) (Some demo_blank_provider) "example.com" "t1" "ka" demo_world
     = (Panics, demo_world)
  /\ calls (snd (CleanUp (E:=demo) (Some demo_blank_provider) "example.com" "t1"
                   "ka" demo_world))
     = [CallCleanupTXTRecord "_acme-challenge.example.com." "ka"].
Proof.
  split; [reflexivity|].
  destruct (X1_provider_without_config (E:=demo) demo_blank_provider
              "example.com" "t1" "ka" demo_world eq_refl)
    as (Hp & _ & _ & Hc).
  split; [exact Hp | exact Hc].
Defined.

(** X4 on [demo]: no Token and no Secret is reported as no Token. *)
Lemma X4_witness :
  fst (NewDNSProviderConfig (E:=demo) (Some 1%nat) demo_checks_world)
  = Returns (None, Some (errors_New "sakuracloud: AccessToken is missing"))
  /\ fst (NewDNSProviderConfig (E:=demo) (Some 2%nat) demo_checks_world)
     = Returns (None, Some (errors_New "sakuracloud: AccessSecret is missing")).
Proof.
  destruct (X4_validation_order_and_messages (E:=demo) demo_checks_world)
    as (_ & Htok & Hsec).
  split.
  - exact (f_equal fst
             (Htok 1%nat (set_Secret "" (set_Token "" demo_config))
                eq_refl eq_refl)).
  - refine (f_equal fst
              (Hsec 2%nat (set_Secret "" demo_config) eq_refl _ eq_refl)).
    discriminate.
Defined.

(** X5 on [demo_down], where no profile is found. *)
Lemma X5_witness :
  heap demo_down_world !! 0%nat = Some demo_config
  /\ api_DefaultOption (Externals:=demo_down) (environ demo_down_world)
       (ext demo_down_world)
     = inr (errors_New "no profile")
  /\ NewDNSProviderConfig (E:=demo_down) (Some 0%nat) demo_down_world
     = (Returns (None, Some (fmt_Errorf_w "sakuracloud: " (errors_New "no profile"))),
        demo_down_world).
Proof.
  split; [reflexivity|]. split; [reflexivity|].
  apply (X5_DefaultOption_error_is_wrapped (E:=demo_down)
           0%nat demo_config (errors_New "no profile") demo_down_world);
    [reflexivity | discriminate | discriminate | reflexivity].
Defined.

(** X6 on [demo]: a refused configuration changes nothing. *)
Lemma X6_witness :
  snd (NewDNSProviderConfig (E:=demo) (Some 1%nat) demo_checks_world)
  = demo_checks_world.
Proof.
  apply (X6_NewDNSProviderConfig_frame (E:=demo) (Some 1%nat) demo_checks_world).
  intros p e. discriminate.
Defined.

(** X7 on [demo]: the provider for the configuration at address 0. *)
Lemma X7_witness :
  let w' := snd (NewDNSProviderConfig (E:=demo) (Some 0%nat) demo_world) in
  NewDNSProviderConfig (E:=demo) (Some 0%nat) demo_world
  = (Returns (Some demo_provider, None), w')
  /\ exists l c,
       Some 0%nat = Some l /\ heap demo_world !! l = Some c
       /\ Token c <> "" /\ Secret c <> ""
       /\ Timeout (Some demo_provider) w'
          = (Returns (PropagationTimeout c, PollingInterval c), w')
       /\ (exists r, fst (Present (Some demo_provider) "example.com" "t1" "ka" w')
                     = Returns r)
       /\ calls (snd (Present (Some demo_provider) "example.com" "t1" "ka" w'))
          = calls w' ++ [CallAddTXTRecord "_acme-challenge.example.com." "ka" (TTL c)].
Proof.
  intros w'. split; [reflexivity|].
  apply (X7_returned_provider_is_usable (E:=demo) (Some 0%nat) demo_world w'
           demo_provider None "example.com" "t1" "ka").
  reflexivity.
Defined.

(** X8 on [demo]: the propagation timeout set to five seconds after the
    provider was built. *)
Lemma X8_witness :
  let w' := snd (NewDNSProviderConfig (E:=demo) (Some 0%nat) demo_world) in
  let f := fun c : Config =>
    {| Token := Token c; Secret := Secret c;
       PropagationTimeout := 5 * time_Second;
       PollingInterval := PollingInterval c; TTL := TTL c;
       HTTPClient := HTTPClient c |} in
  NewDNSProviderConfig (E:=demo) (Some 0%nat) demo_world
  = (Returns (Some demo_provider, None), w')
  /\ fst (bind (update_Config (Some 0%nat) f)
               (fun _ => Timeout (Some demo_provider)) w')
     = Returns (5000000000, 2000000000).
Proof.
  intros w' f. split; [reflexivity|].
  destruct (X8_provider_shares_its_config (E:=demo) 0%nat demo_world w'
              demo_provider None f eq_refl)
    as (c & Hc & Hrun).
  change (Some demo_config = Some c) in Hc. injection Hc as <-.
  exact (f_equal fst Hrun).
Defined.

(** X13 on a URL with a cutset of two ASCII bytes. *)
Lemma X13_witness :
  forallb is_ascii (list_ascii_of_string "/ ") = true
  /\ exists removed,
       "https://dns.example/api/ /"
       = strings_TrimRight "https://dns.example/api/ /" "/ " +:+ removed
       /\ forallb (fun c => in_cutset c "/ ") (list_ascii_of_string removed) = true
       /\ (forall r c,
             strings_TrimRight "https://dns.example/api/ /" "/ "
             = r +:+ String c "" ->
             in_cutset c "/ " = false).
Proof.
  split; [reflexivity|].
  apply (X13_TrimRight_splits "https://dns.example/api/ /" "/ ").
  reflexivity.
Defined.

(** X14 on [demo]: the caller for the default options of [demo]. *)
Lemma X14_witness :
  exists o opts',
    fst (newCaller (E:=demo) demo_DefaultOption demo_world)
      = Returns (iaas_NewClientWithOptions o, opts')
    /\ UserAgent o = "sacloud".
Proof.
  destruct (X14_newCaller_keeps_credentials (E:=demo) demo_DefaultOption demo_world)
    as (o & opts' & Hr & _).
  exists o, opts'. split; [exact Hr|].
  injection Hr as <- _. reflexivity.
Defined.

(** X2 on [demo_down]: the refusal of the service, as [Present] returns
    it. *)
Lemma X2_witness :
  fst (Present (E:=demo_down) (Some demo_provider) "example.com" "t1" "ka"
         demo_down_world)
  = Returns (Some (fmt_Errorf_w "sakuracloud: " (errors_New "503")))
  /\ String.prefix "sakuracloud: "
       (Error (fmt_Errorf_w "sakuracloud: " (errors_New "503"))) = true.
Proof.
  split; [reflexivity|].
  apply (X2_errors_start_with_package_name (E:=demo_down)
           (Some demo_provider) "example.com" "t1" "ka" None demo_down_world).
  left. reflexivity.
Defined.

(** X16 on [demo]: the provider from the environment of [demo_world]
    points to address 1, address 0 being taken. *)
Lemma X16_witness :
  let r := NewDNSProvider (E:=demo) demo_world in
  exists p,
    r = (Returns (Some p, None), snd r)
    /\ exists l c,
         config p = Some l
         /\ heap demo_world !! l = None
         /\ heap (snd r) !! l = Some c
         /\ (forall l' c', heap demo_world !! l' = Some c' ->
                           heap (snd r) !! l' = Some c')
         /\ environ (snd r) = environ demo_world.
Proof.
  intros r.
  exists {| config := Some 1%nat; client := client demo_provider |}.
  split; [reflexivity|].
  apply (X16_NewDNSProvider_uses_a_new_Config (E:=demo) demo_world (snd r) _ None).
  reflexivity.
Defined.
